(** * TaskHandler client: data-sync flows of the four screen components

    A shallow embedding of the event handlers of
    - [Login]      (src/unnamed/part_000),
    - [Dashboard]  (src/unnamed/part_001),
    - [BoardView]  (src/frontend/src/pages/BoardView.js),
    - [Inbox]      (src/frontend/src/pages/Inbox.js),
    and the properties of their request, notification and state behaviour.

    The handlers are [async] functions that talk to a REST backend, raise
    toasts and call React state setters.  They are embedded in a small
    state-and-exception monad over a _world_ (the live React state, the
    trace of observable events, the number of requests issued so far) and a
    read-only _environment_ (what the backend answers, what the user answers
    to [window.confirm], what [localStorage] holds). *)

From Stdlib Require Import String Ascii List ZArith Bool Arith Lia DecimalString.
Import ListNotations.
Local Open Scope string_scope.
Local Open Scope list_scope.

(* ===================================================================== *)
(** ** JavaScript values as they come out of a JSON response *)
(* ===================================================================== *)

Module JS.

(** Response bodies are whatever [JSON.parse] produced; the handlers never
    validate their shape, so the model keeps them untyped.  Numbers are kept
    as integers: the handlers only test them for zero, compare them with
    [===] and pass them on.  An object is its list of own properties. *)
#[local] Set Warnings "-register-all".
Inductive value : Type :=
| Undefined
| Null
| Bool (b : bool)
| Num (z : Z)
| Str (s : string)
| Arr (items : list value)
| Obj (fields : list (string * value)).

(** [!!v] *)
Definition truthy (v : value) : bool :=
  match v with
  | Undefined | Null => false
  | Bool b => b
  | Num z => negb (z =? 0)%Z
  | Str s => negb (s =? "")
  | Arr _ | Obj _ => true
  end.

(** [a || b] *)
Definition or_else (a b : value) : value := if truthy a then a else b.

(** [a === b] for two values taken from different parsed responses:
    primitives compare by value, objects and arrays by identity, and two
    responses never share an object. *)
Definition strict_eq (a b : value) : bool :=
  match a, b with
  | Undefined, Undefined => true
  | Null, Null => true
  | Bool x, Bool y => Bool.eqb x y
  | Num x, Num y => (x =? y)%Z
  | Str x, Str y => (x =? y)
  | _, _ => false
  end.

Fixpoint lookup (k : string) (fs : list (string * value)) : value :=
  match fs with
  | [] => Undefined
  | (k', v) :: rest => if k' =? k then v else lookup k rest
  end.

(** [v.k] for the property names the handlers read ([id], [list_id],
    [title], [description], [priority], [token], [user], [tasks], [detail],
    [length]).  [None] is the [TypeError] of reading a property of
    [undefined] or [null]. *)
Definition get (v : value) (k : string) : option value :=
  match v with
  | Undefined | Null => None
  | Obj fs => Some (lookup k fs)
  | Arr items =>
      Some (if k =? "length" then Num (Z.of_nat (List.length items)) else Undefined)
  | Str s =>
      Some (if k =? "length" then Num (Z.of_nat (String.length s)) else Undefined)
  | Bool _ | Num _ => Some Undefined
  end.

(** [v?.k] *)
Definition get_opt (v : value) (k : string) : value :=
  match get v k with
  | Some x => x
  | None => Undefined
  end.

(** [Array.isArray(v) ? v : []] *)
Definition array_or_empty (v : value) : list value :=
  match v with
  | Arr items => items
  | _ => []
  end.

(** [arr.filter(p)] where the callback may throw: the first throw aborts the
    whole call. *)
Fixpoint filter_throwing (p : value -> option bool) (l : list value)
  : option (list value) :=
  match l with
  | [] => Some []
  | x :: rest =>
      match p x with
      | None => None
      | Some b =>
          match filter_throwing p rest with
          | None => None
          | Some kept => Some (if b then x :: kept else kept)
          end
      end
  end.

(** [String.prototype.trim] on strings whose characters are single code
    units below 256: the white space and line terminators in that range are
    TAB, LF, VT, FF, CR, SPACE and NBSP. *)
Definition is_space (c : ascii) : bool :=
  let n := nat_of_ascii c in
  ((n =? 9) || (n =? 10) || (n =? 11) || (n =? 12) || (n =? 13)
   || (n =? 32) || (n =? 160))%nat.

Fixpoint trim_start (s : string) : string :=
  match s with
  | EmptyString => EmptyString
  | String c rest => if is_space c then trim_start rest else s
  end.

Fixpoint trim_end (s : string) : string :=
  match s with
  | EmptyString => EmptyString
  | String c rest =>
      let rest' := trim_end rest in
      if is_space c && (rest' =? "") then EmptyString else String c rest'
  end.

Definition trim (s : string) : string := trim_end (trim_start s).

(** Decimal rendering of an array length inside a template literal. *)
Definition nat_to_string (n : nat) : string :=
  NilZero.string_of_uint (Nat.to_uint n).

End JS.
Import JS.

(* ===================================================================== *)
(** ** Observable events, environment and the handler monad *)
(* ===================================================================== *)

(** What a [catch] clause can receive: a [TypeError] of the handler's own
    property access, or the rejection of an axios call, carrying
    [error.response?.data] when the backend answered at all. *)
Inductive exn : Type :=
| TypeError
| HttpError (response_data : option value).

(** [err.response?.data] *)
Definition response_data_of (e : exn) : value :=
  match e with
  | HttpError (Some d) => d
  | _ => Undefined
  end.

Inductive method : Type := GET | POST | PUT | DELETE.

(** The REST endpoints below [`${BACKEND_URL}/api`], with the values that are
    interpolated into the path. *)
Inductive endpoint : Type :=
| AuthLogin                       (* /auth/login *)
| AuthRegister                    (* /auth/register *)
| Boards                          (* /boards *)
| BoardById (board : value)       (* /boards/${boardId} *)
| ListsOf (board : value)         (* /lists/${boardId} *)
| BoardLists (board : value)      (* /boards/${boardId}/lists *)
| CardsOf (board : value)         (* /cards/${boardId} *)
| ListCards (list_id : value)     (* /lists/${listId}/cards *)
| CardById (card : value)         (* /cards/${cardId} *)
| InboxCards                      (* /inbox *)
| AiExtractTasks.                 (* /ai/extract-tasks *)

Record request : Type := Request {
  req_method : method;
  req_endpoint : endpoint;
  req_body : value;                 (* [Undefined] when the call has none *)
  req_auth : option string          (* the Authorization header, if any *)
}.

Inductive event : Type :=
| Sent (r : request)
| ToastError (msg : value)
| ToastSuccess (msg : value)
| ConsoleError (label : string) (payload : value)
| ConsoleErrorExn (label : string) (err : exn)
| Confirm (msg : string)
| PreventDefault
| OnLogin (token user : value).

Inductive reply : Type :=
| Ok (data : value)                       (* [response.data] *)
| Fail (response_data : option value).    (* the promise rejects *)

(** The handler's surroundings.  [backend n] is the answer to the [n]-th
    request the handler issues (counting from 0); as every theorem
    quantifies over the environment this covers every backend. *)
Record env : Type := Env {
  backend : nat -> reply;
  confirm_answer : bool;
  stored_token : option string;
  onLogin_raises : option exn
}.

Inductive outcome (A : Type) : Type :=
| Val (a : A)
| Throw (e : exn).
Arguments Val {A} a.
Arguments Throw {A} e.

Record world (St : Type) : Type := World {
  st : St;
  log : list event;
  issued : nat
}.
Arguments World {St} st log issued.
Arguments st {St} w.
Arguments log {St} w.
Arguments issued {St} w.

Definition M (St A : Type) : Type := env -> world St -> outcome A * world St.

Definition init {St} (s : St) : world St := World s [] 0.

Section Monad.
Context {St : Type}.

Definition ret {A} (a : A) : M St A := fun _ w => (Val a, w).

Definition bind {A B} (m : M St A) (k : A -> M St B) : M St B :=
  fun e w =>
    match m e w with
    | (Val a, w') => k a e w'
    | (Throw x, w') => (Throw x, w')
    end.

Definition throw {A} (x : exn) : M St A := fun _ w => (Throw x, w).

(** [try { m } catch (err) { h err }] *)
Definition try_catch {A} (m : M St A) (h : exn -> M St A) : M St A :=
  fun e w =>
    match m e w with
    | (Val a, w') => (Val a, w')
    | (Throw x, w') => h x e w'
    end.

(** [try { m } finally { f }] *)
Definition finally {A} (m : M St A) (f : M St unit) : M St A :=
  fun e w =>
    match m e w with
    | (r, w') =>
        match f e w' with
        | (Val _, w'') => (r, w'')
        | (Throw x, w'') => (Throw x, w'')
        end
    end.

(** A property access that throws a [TypeError] on [undefined]/[null]. *)
Definition eval {A} (o : option A) : M St A :=
  match o with
  | Some a => ret a
  | None => throw TypeError
  end.

Definition emit (ev : event) : M St unit :=
  fun _ w => (Val tt, World (st w) (log w ++ [ev]) (issued w)).

(** A state setter, [setX(v)], as an update of the live state. *)
Definition modify (f : St -> St) : M St unit :=
  fun _ w => (Val tt, World (f (st w)) (log w) (issued w)).

Definition ask : M St env := fun e w => (Val e, w).

(** [axios.<method>(...)] called: the request goes out and a promise,
    named by the request's index, comes back. *)
Definition issue (r : request) : M St nat :=
  fun _ w => (Val (issued w), World (st w) (log w ++ [Sent r]) (S (issued w))).

(** [await promise] *)
Definition await (promise : nat) : M St value :=
  fun e w =>
    match backend e promise with
    | Ok d => (Val d, w)
    | Fail r => (Throw (HttpError r), w)
    end.

End Monad.

Declare Scope handler_scope.
Delimit Scope handler_scope with handler.
Notation "x <- m ;; k" := (bind m (fun x => k))
  (at level 61, m at next level, right associativity) : handler_scope.
Notation "m ;; k" := (bind m (fun _ => k))
  (at level 61, right associativity) : handler_scope.
Local Open Scope handler_scope.

(** [{ Authorization: `Bearer ${token}` }] for the token [localStorage]
    holds ([null] when there is none). *)
Definition auth_of (e : env) : option string :=
  Some ("Bearer " ++ match stored_token e with
                     | Some t => t
                     | None => "null"
                     end)%string.
Arguments auth_of : simpl never.

Section Effects.
Context {St : Type}.

(** [await axios.<method>(...)] *)
Definition http (r : request) : M St value :=
  p <- issue r ;; await p.

(** [await Promise.all(promises)]: all answers, or the rejection of a
    failed one (the one issued first, when several fail; the handlers
    below only log it). *)
Fixpoint await_all (promises : list nat) : M St (list value) :=
  match promises with
  | [] => ret []
  | p :: rest =>
      d <- await p ;;
      ds <- await_all rest ;;
      ret (d :: ds)
  end.

(** [toast.error("...")] and [toast.success("...")] *)
Definition toast_error (msg : string) : M St unit := emit (ToastError (Str msg)).
Definition toast_success (msg : string) : M St unit := emit (ToastSuccess (Str msg)).

(** [localStorage.getItem("token")] and the header built from it. *)
Definition bearer_header : M St (option string) :=
  e <- ask ;;
  ret (auth_of e).

(** [window.confirm(msg)] *)
Definition confirm (msg : string) : M St bool :=
  emit (Confirm msg) ;;
  e <- ask ;;
  ret (confirm_answer e).

(** [for (const x of xs) { body x }] *)
Fixpoint for_of {A} (xs : list A) (body : A -> M St unit) : M St unit :=
  match xs with
  | [] => ret tt
  | x :: rest => body x ;; for_of rest body
  end.

End Effects.

(** A [let] variable of a handler: the body runs over the live state paired
    with the variable's cell. *)
Definition with_local {St L A} (l0 : L) (m : M (St * L) A) : M St A :=
  fun e w =>
    match m e (World (st w, l0) (log w) (issued w)) with
    | (r, w') => (r, World (fst (st w')) (log w') (issued w'))
    end.

(** [position++] on such a cell. *)
Definition post_incr {St} : M (St * nat) nat :=
  fun _ w =>
    (Val (snd (st w)),
     World (fst (st w), S (snd (st w))) (log w) (issued w)).

(** A call of an [async] function whose promise is dropped (no [await]):
    a rejection cannot reach the caller.  Used where the call is the
    caller's last statement, so that nothing of the caller runs in between. *)
Definition detached {St} (m : M St unit) : M St unit :=
  try_catch m (fun _ => ret tt).

(** Projections of a trace. *)
Definition requests (l : list event) : list request :=
  flat_map (fun ev => match ev with Sent r => [r] | _ => [] end) l.

Definition is_card_creation (r : request) : bool :=
  match req_method r, req_endpoint r with
  | POST, ListCards _ => true
  | _, _ => false
  end.

Definition card_creations (l : list event) : list request :=
  filter is_card_creation (requests l).

Definition error_toasts (l : list event) : list value :=
  flat_map (fun ev => match ev with ToastError m => [m] | _ => [] end) l.

Definition success_toasts (l : list event) : list value :=
  flat_map (fun ev => match ev with ToastSuccess m => [m] | _ => [] end) l.

Definition onLogin_calls (l : list event) : list (value * value) :=
  flat_map (fun ev => match ev with OnLogin t u => [(t, u)] | _ => [] end) l.

(* ===================================================================== *)
(** ** Inbox (src/frontend/src/pages/Inbox.js) *)
(* ===================================================================== *)

Module Inbox.

Record state : Type := State {
  cards : list value;
  boards : list value;
  loading : bool;
  showAIConverter : bool;
  inputText : string;
  extractedTasks : list value;
  selectedBoard : value;
  extracting : bool
}.

Definition setCards v s :=
  State v (boards s) (loading s) (showAIConverter s) (inputText s)
        (extractedTasks s) (selectedBoard s) (extracting s).
Definition setBoards v s :=
  State (cards s) v (loading s) (showAIConverter s) (inputText s)
        (extractedTasks s) (selectedBoard s) (extracting s).
Definition setLoading v s :=
  State (cards s) (boards s) v (showAIConverter s) (inputText s)
        (extractedTasks s) (selectedBoard s) (extracting s).
Definition setShowAIConverter v s :=
  State (cards s) (boards s) (loading s) v (inputText s)
        (extractedTasks s) (selectedBoard s) (extracting s).
Definition setInputText v s :=
  State (cards s) (boards s) (loading s) (showAIConverter s) v
        (extractedTasks s) (selectedBoard s) (extracting s).
Definition setExtractedTasks v s :=
  State (cards s) (boards s) (loading s) (showAIConverter s) (inputText s)
        v (selectedBoard s) (extracting s).
Definition setSelectedBoard v s :=
  State (cards s) (boards s) (loading s) (showAIConverter s) (inputText s)
        (extractedTasks s) v (extracting s).
Definition setExtracting v s :=
  State (cards s) (boards s) (loading s) (showAIConverter s) (inputText s)
        (extractedTasks s) (selectedBoard s) v.

(** [fetchData], lines 50-72. *)
Definition fetchData : M state unit :=
  finally
    (try_catch
       (headers <- bearer_header ;;
        cardsP <- issue (Request GET InboxCards Undefined headers) ;;
        boardsP <- issue (Request GET Boards Undefined headers) ;;
        rs <- await_all [cardsP; boardsP] ;;
        let cardsData := array_or_empty (nth 0 rs Undefined) in
        let boardsData := array_or_empty (nth 1 rs Undefined) in
        modify (setCards cardsData) ;;
        modify (setBoards boardsData))
       (fun error =>
          emit (ConsoleErrorExn "Inbox fetch error:" error) ;;
          toast_error "Failed to load inbox" ;;
          modify (setCards [])))
    (modify (setLoading false)).

(** [extractTasks], lines 75-100; [s] is the state the handler closed
    over. *)
Definition extractTasks (s : state) : M state unit :=
  if trim (inputText s) =? "" then
    toast_error "Please enter some text"
  else
    modify (setExtracting true) ;;
    finally
      (try_catch
         (headers <- bearer_header ;;
          data <- http (Request POST AiExtractTasks
                          (Obj [("text", Str (inputText s))]) headers) ;;
          tasks <- eval (get data "tasks") ;;
          modify (setExtractedTasks (array_or_empty tasks)) ;;
          toast_success "Tasks extracted! Review and select a board to add them.")
         (fun _ => toast_error "Failed to extract tasks"))
      (modify (setExtracting false)).

(** The callback of line 131-133: [(c) => c.list_id === firstList.id]. *)
Definition in_first_list (firstList c : value) : option bool :=
  match get c "list_id" with
  | None => None
  | Some l =>
      match get firstList "id" with
      | None => None
      | Some i => Some (strict_eq l i)
      end
  end.

(** Lines 131-133:
    [existingCards.filter((c) => c.list_id === firstList.id).length];
    [None] when the callback throws. *)
Definition start_position (firstList : value) (existingCards : list value)
  : option nat :=
  match filter_throwing (in_first_list firstList) existingCards with
  | Some inList => Some (List.length inList)
  | None => None
  end.

(** The body of the [for ... of] loop, lines 136-153; the cell next to the
    state is [let position].  The console label is the source's without its
    leading cross-mark emoji. *)
Definition post_task (selectedBoard firstList : value) (headers : option string)
    (task : value) : M (state * nat) unit :=
  if negb (truthy (get_opt firstList "id")) || negb (truthy selectedBoard) then
    ret tt
  else
    try_catch
      (url_id <- eval (get firstList "id") ;;
       title <- eval (get task "title") ;;
       description <- eval (get task "description") ;;
       list_id <- eval (get firstList "id") ;;
       board_id <- eval (get selectedBoard "id") ;;
       position <- post_incr ;;
       priority <- eval (get task "priority") ;;
       _ <- http (Request POST (ListCards url_id)
                    (Obj [("title", or_else title (Str "Untitled Task"));
                          ("description", or_else description (Str ""));
                          ("list_id", list_id);
                          ("board_id", or_else board_id selectedBoard);
                          ("position", Num (Z.of_nat position));
                          ("priority", or_else priority (Str "medium"))])
                    headers) ;;
       ret tt)
      (fun err =>
         emit (ConsoleError "Failed to add task:" (response_data_of err))).

(** [addTasksToBoard], lines 103-166. *)
Definition addTasksToBoard (s : state) : M state unit :=
  if negb (truthy (selectedBoard s)) then
    toast_error "Please select a board"
  else
    try_catch
      (headers <- bearer_header ;;
       listsData <- http (Request GET (ListsOf (selectedBoard s)) Undefined headers) ;;
       match array_or_empty listsData with
       | [] => toast_error "This board has no lists. Create a list first."
       | firstList :: _ =>
           cardsData <- http (Request GET (CardsOf (selectedBoard s)) Undefined headers) ;;
           let existingCards := array_or_empty cardsData in
           position <- eval (start_position firstList existingCards) ;;
           with_local position
             (for_of (extractedTasks s)
                     (post_task (selectedBoard s) firstList headers)) ;;
           toast_success (nat_to_string (List.length (extractedTasks s))
                          ++ " task(s) added to board!")%string ;;
           modify (setShowAIConverter false) ;;
           modify (setInputText "") ;;
           modify (setExtractedTasks []) ;;
           modify (setSelectedBoard (Str "")) ;;
           detached fetchData
       end)
      (fun error =>
         emit (ConsoleErrorExn "Card creation error:" error) ;;
         toast_error "Failed to add tasks").

End Inbox.

(* ===================================================================== *)
(** ** BoardView (src/frontend/src/pages/BoardView.js) *)
(* ===================================================================== *)

Module BoardView.

Record newCard : Type := NewCard { title : string; listId : value }.

Record state : Type := State {
  board : value;
  lists : value;
  cards : value;
  loading : bool;
  newListTitle : string;
  selectedCard : value;
  showCardDialog : bool;
  newCardData : newCard;
  showNewCardDialog : bool
}.

Definition setBoard v s :=
  State v (lists s) (cards s) (loading s) (newListTitle s) (selectedCard s)
        (showCardDialog s) (newCardData s) (showNewCardDialog s).
Definition setLists v s :=
  State (board s) v (cards s) (loading s) (newListTitle s) (selectedCard s)
        (showCardDialog s) (newCardData s) (showNewCardDialog s).
Definition setCards v s :=
  State (board s) (lists s) v (loading s) (newListTitle s) (selectedCard s)
        (showCardDialog s) (newCardData s) (showNewCardDialog s).
Definition setLoading v s :=
  State (board s) (lists s) (cards s) v (newListTitle s) (selectedCard s)
        (showCardDialog s) (newCardData s) (showNewCardDialog s).
Definition setNewListTitle v s :=
  State (board s) (lists s) (cards s) (loading s) v (selectedCard s)
        (showCardDialog s) (newCardData s) (showNewCardDialog s).
Definition setShowCardDialog v s :=
  State (board s) (lists s) (cards s) (loading s) (newListTitle s)
        (selectedCard s) v (newCardData s) (showNewCardDialog s).
Definition setNewCardData v s :=
  State (board s) (lists s) (cards s) (loading s) (newListTitle s)
        (selectedCard s) (showCardDialog s) v (showNewCardDialog s).
Definition setShowNewCardDialog v s :=
  State (board s) (lists s) (cards s) (loading s) (newListTitle s)
        (selectedCard s) (showCardDialog s) (newCardData s) v.

Section Handlers.
(** [const { boardId } = useParams()] *)
Variable boardId : value.

(** [fetchBoardData], lines 33-52. *)
Definition fetchBoardData : M state unit :=
  finally
    (try_catch
       (headers <- bearer_header ;;
        boardP <- issue (Request GET (BoardById boardId) Undefined headers) ;;
        listsP <- issue (Request GET (ListsOf boardId) Undefined headers) ;;
        cardsP <- issue (Request GET (CardsOf boardId) Undefined headers) ;;
        rs <- await_all [boardP; listsP; cardsP] ;;
        modify (setBoard (nth 0 rs Undefined)) ;;
        modify (setLists (nth 1 rs Undefined)) ;;
        modify (setCards (nth 2 rs Undefined)))
       (fun _ => toast_error "Failed to load board data"))
    (modify (setLoading false)).

(** The same function cut at its [await]: what runs inside the call
    [fetchBoardData()] itself, and what runs once the answers are in.  A
    caller that does not [await] the call runs its own next statements
    between the two ([fetchBoardData_cut] below). *)
Definition fetchBoardData_call : M state (list nat) :=
  headers <- bearer_header ;;
  boardP <- issue (Request GET (BoardById boardId) Undefined headers) ;;
  listsP <- issue (Request GET (ListsOf boardId) Undefined headers) ;;
  cardsP <- issue (Request GET (CardsOf boardId) Undefined headers) ;;
  ret [boardP; listsP; cardsP].

Definition fetchBoardData_resume (promises : list nat) : M state unit :=
  finally
    (try_catch
       (rs <- await_all promises ;;
        modify (setBoard (nth 0 rs Undefined)) ;;
        modify (setLists (nth 1 rs Undefined)) ;;
        modify (setCards (nth 2 rs Undefined)))
       (fun _ => toast_error "Failed to load board data"))
    (modify (setLoading false)).

(** What is left to run after a handler returned: the pending
    [fetchBoardData], if the handler started one. *)
Definition settle (pending : option (list nat)) : M state unit :=
  match pending with
  | Some promises => fetchBoardData_resume promises
  | None => ret tt
  end.

(** [createList], lines 54-70. *)
Definition createList (s : state) : M state unit :=
  if trim (newListTitle s) =? "" then
    ret tt
  else
    pending <-
      try_catch
        (headers <- bearer_header ;;
         position <- eval (get (lists s) "length") ;;
         _ <- http (Request POST (BoardLists boardId)
                      (Obj [("title", Str (newListTitle s));
                            ("board_id", boardId);
                            ("position", position)])
                      headers) ;;
         modify (setNewListTitle "") ;;
         promises <- fetchBoardData_call ;;
         toast_success "List created!" ;;
         ret (Some promises))
        (fun _ => toast_error "Failed to create list" ;; ret None) ;;
    settle pending.

(** [createCard], lines 72-75. *)
Definition createCard (list_id : value) : M state unit :=
  modify (setNewCardData (NewCard "" list_id)) ;;
  modify (setShowNewCardDialog true).

(** [cards.filter((c) => c.list_id === newCardData.listId)], line 86;
    [cards] is whatever the last fetch stored. *)
Definition cards_of_list (cards list_id : value) : option (list value) :=
  match cards with
  | Arr items =>
      filter_throwing
        (fun c => match get c "list_id" with
                  | None => None
                  | Some l => Some (strict_eq l list_id)
                  end)
        items
  | _ => None
  end.

(** [handleCreateCard], lines 77-107. *)
Definition handleCreateCard (s : state) : M state unit :=
  if trim (title (newCardData s)) =? "" then
    toast_error "Card title is required"
  else
    try_catch
      (headers <- bearer_header ;;
       listCards <- eval (cards_of_list (cards s) (listId (newCardData s))) ;;
       _ <- http (Request POST (ListCards (listId (newCardData s)))
                    (Obj [("title", Str (title (newCardData s)));
                          ("description", Str "");
                          ("list_id", listId (newCardData s));
                          ("board_id", boardId);
                          ("position", Num (Z.of_nat (List.length listCards)))])
                    headers) ;;
       fetchBoardData ;;
       modify (setShowNewCardDialog false) ;;
       modify (setNewCardData (NewCard "" (Str ""))) ;;
       toast_success "Card created!")
      (fun _ => toast_error "Failed to create card").

(** [deleteCard], lines 109-123. *)
Definition deleteCard (cardId : value) : M state unit :=
  confirmed <- confirm "Delete this card?" ;;
  if negb confirmed then
    ret tt
  else
    pending <-
      try_catch
        (headers <- bearer_header ;;
         _ <- http (Request DELETE (CardById cardId) Undefined headers) ;;
         promises <- fetchBoardData_call ;;
         modify (setShowCardDialog false) ;;
         toast_success "Card deleted" ;;
         ret (Some promises))
        (fun _ => toast_error "Failed to delete card" ;; ret None) ;;
    settle pending.

(** [updateCard], lines 125-136. *)
Definition updateCard (cardId updates : value) : M state unit :=
  try_catch
    (headers <- bearer_header ;;
     _ <- http (Request PUT (CardById cardId) updates headers) ;;
     fetchBoardData ;;
     toast_success "Card updated")
    (fun _ => toast_error "Failed to update card").

End Handlers.

(** The column of one list in the rendered board, line 177:
    [const listCards = cards.filter((c) => c.list_id === list.id)], with
    [cards] the stored answer of the last fetch and [lst] the list. *)
Definition listCards (cards lst : value) : option (list value) :=
  match cards with
  | Arr items =>
      filter_throwing
        (fun c => match get c "list_id" with
                  | None => None
                  | Some l =>
                      match get lst "id" with
                      | None => None
                      | Some i => Some (strict_eq l i)
                      end
                  end)
        items
  | _ => None
  end.

End BoardView.

(* ===================================================================== *)
(** ** Dashboard (src/unnamed/part_001) *)
(* ===================================================================== *)

Module Dashboard.

Record newBoard : Type := NewBoard { title : string; description : string }.

Record state : Type := State {
  boards : value;
  loading : bool;
  showNewBoard : bool;
  newBoardData : newBoard
}.

Definition setBoards v s := State v (loading s) (showNewBoard s) (newBoardData s).
Definition setLoading v s := State (boards s) v (showNewBoard s) (newBoardData s).
Definition setShowNewBoard v s := State (boards s) (loading s) v (newBoardData s).
Definition setNewBoardData v s := State (boards s) (loading s) (showNewBoard s) v.

(** [fetchBoards], lines 39-51. *)
Definition fetchBoards : M state unit :=
  finally
    (try_catch
       (headers <- bearer_header ;;
        data <- http (Request GET Boards Undefined headers) ;;
        modify (setBoards data))
       (fun _ => toast_error "Failed to load boards"))
    (modify (setLoading false)).

(** [createBoard], lines 53-71. *)
Definition createBoard (s : state) : M state unit :=
  if trim (title (newBoardData s)) =? "" then
    toast_error "Board title is required"
  else
    try_catch
      (headers <- bearer_header ;;
       _ <- http (Request POST Boards
                    (Obj [("title", Str (title (newBoardData s)));
                          ("description", Str (description (newBoardData s)))])
                    headers) ;;
       toast_success "Board created successfully!" ;;
       modify (setShowNewBoard false) ;;
       modify (setNewBoardData (NewBoard "" "")) ;;
       detached fetchBoards)
      (fun _ => toast_error "Failed to create board").

End Dashboard.

(* ===================================================================== *)
(** ** Login (src/unnamed/part_000) *)
(* ===================================================================== *)

Module Login.

Record form : Type := Form { email : string; password : string; name : string }.

Record state : Type := State {
  isLogin : bool;
  formData : form;
  loading : bool
}.

Definition setLoading v s := State (isLogin s) (formData s) v.

(** The [onLogin] prop: the parent's callback is outside this component;
    the call is recorded and may raise what the environment says. *)
Definition onLogin (token user : value) : M state unit :=
  emit (OnLogin token user) ;;
  e <- ask ;;
  match onLogin_raises e with
  | Some x => throw x
  | None => ret tt
  end.

(** [handleSubmit], lines 28-45. *)
Definition handleSubmit (s : state) : M state unit :=
  emit PreventDefault ;;
  modify (setLoading true) ;;
  finally
    (try_catch
       (let endpoint := if isLogin s then AuthLogin else AuthRegister in
        data <- http (Request POST endpoint
                        (Obj [("email", Str (email (formData s)));
                              ("password", Str (password (formData s)));
                              ("name", Str (name (formData s)))])
                        None) ;;
        token <- eval (get data "token") ;;
        user <- eval (get data "user") ;;
        onLogin token user ;;
        toast_success (if isLogin s then "Welcome back!"
                       else "Account created successfully!"))
       (fun error =>
          emit (ConsoleErrorExn "Login error:" error) ;;
          emit (ToastError (or_else (get_opt (response_data_of error) "detail")
                                    (Str "An error occurred")))))
    (modify (setLoading false)).

End Login.

(* ===================================================================== *)
(** ** Vocabulary of the properties *)
(* ===================================================================== *)

(** [undefined] and [null]: the values whose properties cannot be read. *)
Definition is_nullish (v : value) : bool :=
  match v with
  | Undefined | Null => true
  | _ => false
  end.

(** A property of the JSON body of a request. *)
Definition body_field (k : string) (r : request) : value :=
  get_opt (req_body r) k.

(** The card-creation request of one extracted task at one position, and the
    requests of a whole batch: one per task that is not [null], none at all
    when the first list has no usable [id]. *)
Definition card_request (selectedBoard firstList : value) (headers : option string)
    (task : value) (position : nat) : request :=
  Request POST (ListCards (get_opt firstList "id"))
    (Obj [("title", or_else (get_opt task "title") (Str "Untitled Task"));
          ("description", or_else (get_opt task "description") (Str ""));
          ("list_id", get_opt firstList "id");
          ("board_id", or_else (get_opt selectedBoard "id") selectedBoard);
          ("position", Num (Z.of_nat position));
          ("priority", or_else (get_opt task "priority") (Str "medium"))])
    headers.

Fixpoint batch_requests (selectedBoard firstList : value) (headers : option string)
    (tasks : list value) (position : nat) : list request :=
  match tasks with
  | [] => []
  | task :: rest =>
      if negb (truthy (get_opt firstList "id")) || negb (truthy selectedBoard) then
        batch_requests selectedBoard firstList headers rest position
      else if is_nullish task then
        batch_requests selectedBoard firstList headers rest position
      else
        card_request selectedBoard firstList headers task position
        :: batch_requests selectedBoard firstList headers rest (S position)
  end.

(** The cards of a fetched card set that belong to a list:
    [c.list_id === firstList.id]. *)
Definition belongs_to (firstList c : value) : bool :=
  strict_eq (get_opt c "list_id") (get_opt firstList "id").

(** An environment in which every request from the [n]-th on succeeds. *)
Definition succeeding_from (n : nat) (e : env) : env :=
  Env (fun i => if (n <=? i)%nat then Ok Undefined else backend e i)
      (confirm_answer e) (stored_token e) (onLogin_raises e).

(** A value, or a default when it is absent ([undefined] or [null]): the
    reading of "defaulted when absent" to compare [or_else] with. *)
Definition or_default (given dflt : value) : value :=
  if is_nullish given then dflt else given.

(** [actual] is [given] when that is truthy and [dflt] otherwise. *)
Definition defaulted (given dflt actual : value) : Prop :=
  (truthy given = true -> actual = given)
  /\ (truthy given = false -> actual = dflt).

(** The request [r] carries the title, the description and the priority of
    [task], each replaced by its default when it is not truthy. *)
Definition carries_defaults (task : value) (r : request) : Prop :=
  defaulted (get_opt task "title") (Str "Untitled Task") (body_field "title" r)
  /\ defaulted (get_opt task "description") (Str "") (body_field "description" r)
  /\ defaulted (get_opt task "priority") (Str "medium") (body_field "priority" r).

(** The extracted tasks a commit can post: those that are not [null]. *)
Definition postable_tasks (tasks : list value) : list value :=
  filter (fun t => negb (is_nullish t)) tasks.

Definition failed (r : reply) : bool :=
  match r with
  | Fail _ => true
  | Ok _ => false
  end.

(** *** Sample inputs *)

(** A board with two lists, three cards of which two are in the first list;
    the first card post is refused, everything else succeeds. *)
Definition two_lists_backend (n : nat) : reply :=
  match n with
  | 0 => Ok (Arr [Obj [("id", Str "L1"); ("title", Str "To do")];
                  Obj [("id", Str "L2"); ("title", Str "Done")]])
  | 1 => Ok (Arr [Obj [("id", Str "c1"); ("list_id", Str "L1")];
                  Obj [("id", Str "c2"); ("list_id", Str "L2")];
                  Obj [("id", Str "c3"); ("list_id", Str "L1")]])
  | 2 => Fail (Some (Obj [("detail", Str "List not found")]))
  | _ => Ok (Arr [])
  end.

Definition two_lists_env : env := Env two_lists_backend true (Some "t0k3n") None.

(** A board whose only list carries the id [0]. *)
Definition zero_id_backend (n : nat) : reply :=
  match n with
  | 0 => Ok (Arr [Obj [("id", Num 0); ("title", Str "To do")]])
  | _ => Ok (Arr [])
  end.

Definition zero_id_env : env := Env zero_id_backend true (Some "t0k3n") None.

(** The scenario of the specification: a board with one list and no card,
    every request answered. *)
Definition one_list_backend (n : nat) : reply :=
  match n with
  | 0 => Ok (Arr [Obj [("id", Str "L1"); ("title", Str "To do")]])
  | _ => Ok (Arr [])
  end.

Definition one_list_env : env := Env one_list_backend true (Some "t0k3n") None.

(** A board without lists. *)
Definition no_lists_env : env :=
  Env (fun _ => Ok (Arr [])) true (Some "t0k3n") None.


(** The user declines the confirmation prompt. *)
Definition declining_env : env :=
  Env (fun _ => Ok Undefined) false (Some "t0k3n") None.

(** The backend accepts the credentials. *)
Definition accepting_env : env :=
  Env (fun _ => Ok (Obj [("token", Str "t0k3n");
                         ("user", Obj [("id", Str "u1"); ("name", Str "Ada")])]))
      true None None.

(** The inbox dialog after an extraction of two tasks, board [B1] chosen. *)
Definition two_tasks : Inbox.state :=
  Inbox.State [Obj [("id", Str "c0")]] [Obj [("id", Str "B1")]] false true
    "Buy milk. Call Bob tomorrow."
    [Obj [("title", Str "Buy milk")];
     Obj [("title", Str "Call Bob"); ("description", Str "tomorrow");
          ("priority", Str "high")]]
    (Str "B1") false.

(** The same dialog with a single task. *)
Definition one_task : Inbox.state :=
  Inbox.State [] [Obj [("id", Str "B1")]] false true "Buy milk."
    [Obj [("title", Str "Buy milk")]]
    (Str "B1") false.

(** The same dialog with one task whose title is the empty string. *)
Definition empty_title_task : Inbox.state :=
  Inbox.State [] [Obj [("id", Str "B1")]] false true "..."
    [Obj [("title", Str ""); ("description", Str "call back");
          ("priority", Str "high")]]
    (Str "B1") false.

Definition blank_list_title : BoardView.state :=
  BoardView.State (Obj [("id", Str "B1")]) (Arr []) (Arr []) false "   "
    Null false (BoardView.NewCard " " (Str "L1")) true.

Definition blank_board_title : Dashboard.state :=
  Dashboard.State (Arr []) false true (Dashboard.NewBoard "  " "notes").

Definition login_form : Login.state :=
  Login.State true (Login.Form "ada@example.com" "secret" "") false.

(** An answer whose body the handler cannot read: the request is
    refused, or its body is [null]. *)
Definition answer_unusable (r : reply) : bool :=
  match r with
  | Fail _ => true
  | Ok d => is_nullish d
  end.

(** The characters of a string. *)
Definition chars (s : string) : list ascii := list_ascii_of_string s.

(** A backend that refuses everything, with a reason. *)
Definition refusing_env : env :=
  Env (fun _ => Fail (Some (Obj [("detail", Str "Invalid credentials")])))
      true (Some "t0k3n") None.

(** A backend that cannot be reached. *)
Definition unreachable_env : env :=
  Env (fun _ => Fail None) true (Some "t0k3n") None.

(** The lists of the board are answered, its cards are refused. *)
Definition cards_refused_env : env :=
  Env (fun n => match n with
                | 0 => Ok (Arr [Obj [("id", Str "L1"); ("title", Str "To do")]])
                | _ => Fail None
                end) true (Some "t0k3n") None.

(** The fetched cards hold a [null] entry. *)
Definition null_card_env : env :=
  Env (fun n => match n with
                | 0 => Ok (Arr [Obj [("id", Str "L1"); ("title", Str "To do")]])
                | 1 => Ok (Arr [Obj [("id", Str "c1"); ("list_id", Str "L1")]; Null])
                | _ => Ok (Arr [])
                end) true (Some "t0k3n") None.

(** The extraction endpoint answers with two tasks. *)
Definition extracting_env : env :=
  Env (fun _ => Ok (Obj [("tasks", Arr [Obj [("title", Str "Buy milk")];
                                        Obj [("title", Str "Call Bob")]])]))
      true (Some "t0k3n") None.

(** The credentials are accepted but the parent's callback raises. *)
Definition raising_callback_env : env :=
  Env (fun _ => Ok (Obj [("token", Str "t0k3n");
                         ("user", Obj [("id", Str "u1"); ("name", Str "Ada")])]))
      true None (Some TypeError).

(** The login endpoint answers with an empty body. *)
Definition null_body_env : env := Env (fun _ => Ok Null) true None None.

(** Extracted tasks with a [null] among them. *)
Definition tasks_with_null : Inbox.state :=
  Inbox.State [] [Obj [("id", Str "B1")]] false true "Buy milk. Call Bob."
    [Obj [("title", Str "Buy milk")]; Null; Obj [("title", Str "Call Bob")]]
    (Str "B1") false.

(** The inbox dialog with no board chosen and no text. *)
Definition nothing_chosen : Inbox.state :=
  Inbox.State [] [Obj [("id", Str "B1")]] false true "  "
    [Obj [("title", Str "Buy milk")]] (Str "") false.

(** A loaded board with two lists and three cards, a list title and a card
    title typed, the detail dialog of card [c1] open. *)
Definition loaded_board : BoardView.state :=
  BoardView.State
    (Obj [("id", Str "B1"); ("title", Str "Home")])
    (Arr [Obj [("id", Str "L1"); ("title", Str "To do")];
          Obj [("id", Str "L2"); ("title", Str "Done")]])
    (Arr [Obj [("id", Str "c1"); ("list_id", Str "L1")];
          Obj [("id", Str "c2"); ("list_id", Str "L2")];
          Obj [("id", Str "c3"); ("list_id", Str "L1")]])
    false " Doing" (Obj [("id", Str "c1"); ("list_id", Str "L1")]) true
    (BoardView.NewCard "Write report" (Str "L1")) true.

(** A board view whose stored lists are [null]. *)
Definition board_without_lists : BoardView.state :=
  BoardView.State Null Null Null false "Doing" Null false
    (BoardView.NewCard "" (Str "")) false.

Definition typed_board_title : Dashboard.state :=
  Dashboard.State (Arr []) false true (Dashboard.NewBoard " Home " "chores").

Definition register_form : Login.state :=
  Login.State false (Login.Form "ada@example.com" "secret" "Ada") false.

(** The commit cannot fetch what it needs: the lists request is refused,
    or the board has a list and the cards request is refused. *)
Definition commit_fetch_refused (e : env) : bool :=
  match backend e 0 with
  | Fail _ => true
  | Ok listsData =>
      match array_or_empty listsData with
      | [] => false
      | _ :: _ => failed (backend e 1)
      end
  end.

(** [error.response?.data?.detail] of the rejection an answer gives rise
    to. *)
Definition refusal_detail (r : reply) : value :=
  match r with
  | Fail (Some d) => get_opt d "detail"
  | _ => Undefined
  end.

(** The login endpoint answers with an object that has no field. *)
Definition empty_object_env : env := Env (fun _ => Ok (Obj [])) true None None.

(* ===================================================================== *)
(** ** Basic facts *)
(* ===================================================================== *)

(** Runs a handler symbolically as far as its inputs allow. *)
Ltac run_handler :=
  repeat (progress
            (unfold finally, try_catch, detached, http, bearer_header,
               toast_error, toast_success, confirm, bind, issue, await, ask,
               ret, emit, modify, eval, throw, init;
             cbn [await_all st log issued fst snd negb app])).

Lemma get_not_nullish v k :
  is_nullish v = false -> get v k = Some (get_opt v k).
Proof. destruct v; simpl; intros H; try discriminate; reflexivity. Qed.

Lemma get_nullish v k : is_nullish v = true -> get v k = None.
Proof. destruct v; simpl; intros H; try discriminate; reflexivity. Qed.

Lemma truthy_not_nullish v : truthy v = true -> is_nullish v = false.
Proof. destruct v; simpl; intros H; try discriminate; reflexivity. Qed.

Lemma truthy_get_opt_not_nullish v k :
  truthy (get_opt v k) = true -> is_nullish v = false.
Proof. destruct v; simpl; intros H; try discriminate; reflexivity. Qed.

Lemma requests_app l1 l2 : requests (l1 ++ l2) = requests l1 ++ requests l2.
Proof. apply flat_map_app. Qed.

Lemma error_toasts_app l1 l2 :
  error_toasts (l1 ++ l2) = error_toasts l1 ++ error_toasts l2.
Proof. apply flat_map_app. Qed.

Lemma success_toasts_app l1 l2 :
  success_toasts (l1 ++ l2) = success_toasts l1 ++ success_toasts l2.
Proof. apply flat_map_app. Qed.

Lemma card_creations_app l1 l2 :
  card_creations (l1 ++ l2) = card_creations l1 ++ card_creations l2.
Proof. unfold card_creations. rewrite requests_app. apply filter_app. Qed.

Lemma batch_requests_all_creations sb fl h tasks :
  forall pos, filter is_card_creation (batch_requests sb fl h tasks pos)
              = batch_requests sb fl h tasks pos.
Proof.
  induction tasks as [|t rest IH]; intros pos; simpl; [reflexivity|].
  destruct (negb (truthy (get_opt fl "id")) || negb (truthy sb)); [apply IH|].
  destruct (is_nullish t); [apply IH|].
  simpl. now rewrite IH.
Qed.

Example trim_inner_spaces_kept : trim "  to do  " = "to do".
Proof. reflexivity. Qed.

(** *** The commit loop *)

Lemma batch_requests_cons sb fl h task rest pos :
  batch_requests sb fl h (task :: rest) pos
  = batch_requests sb fl h [task] pos
    ++ batch_requests sb fl h rest
         (pos + List.length (batch_requests sb fl h [task] pos)).
Proof.
  simpl.
  destruct (negb (truthy (get_opt fl "id")) || negb (truthy sb));
    [simpl; now rewrite Nat.add_0_r|].
  destruct (is_nullish task); simpl;
    [now rewrite Nat.add_0_r | now rewrite Nat.add_1_r].
Qed.

(** One iteration: it never throws, leaves the component state alone,
    advances [position] and the request counter by the number of requests it
    issued (one or none), and what it issues does not depend on what the
    backend answers. *)
Lemma post_task_run sb fl h task (e : env) (s : Inbox.state) pos lg n :
  exists l',
    Inbox.post_task sb fl h task e (World (s, pos) lg n)
    = (Val tt,
       World (s, pos + List.length (batch_requests sb fl h [task] pos))
             (lg ++ l')
             (n + List.length (batch_requests sb fl h [task] pos)))
    /\ requests l' = batch_requests sb fl h [task] pos
    /\ error_toasts l' = []
    /\ success_toasts l' = [].
Proof.
  unfold Inbox.post_task. simpl.
  destruct (negb (truthy (get_opt fl "id")) || negb (truthy sb)) eqn:G.
  - exists []. unfold ret. simpl. rewrite app_nil_r, !Nat.add_0_r. auto.
  - apply orb_false_elim in G. destruct G as [Gid Gsb].
    apply negb_false_iff in Gid. apply negb_false_iff in Gsb.
    pose proof (truthy_get_opt_not_nullish _ _ Gid) as Nfl.
    pose proof (truthy_not_nullish _ Gsb) as Nsb.
    unfold http.
    unfold try_catch, bind, issue, await, post_incr, eval, ret, emit, throw.
    rewrite (get_not_nullish _ "id" Nfl).
    destruct (is_nullish task) eqn:Nt.
    + rewrite (get_nullish _ "title" Nt). simpl.
      exists [ConsoleError "Failed to add task:" Undefined].
      rewrite !Nat.add_0_r. auto.
    + rewrite (get_not_nullish _ "title" Nt).
      rewrite (get_not_nullish _ "description" Nt).
      rewrite (get_not_nullish _ "priority" Nt).
      rewrite (get_not_nullish _ "id" Nsb). simpl.
      fold (card_request sb fl h task pos).
      rewrite !Nat.add_1_r.
      destruct (backend e n) as [d|r].
      * exists [Sent (card_request sb fl h task pos)]. auto.
      * exists [Sent (card_request sb fl h task pos);
                ConsoleError "Failed to add task:" (response_data_of (HttpError r))].
        cbn [st log issued]. rewrite <- app_assoc. auto.
Qed.

(** The whole loop, by induction on the extracted tasks. *)
Lemma for_of_post_task sb fl h tasks :
  forall (e : env) (s : Inbox.state) pos lg n,
  exists l',
    for_of tasks (Inbox.post_task sb fl h) e (World (s, pos) lg n)
    = (Val tt,
       World (s, pos + List.length (batch_requests sb fl h tasks pos))
             (lg ++ l')
             (n + List.length (batch_requests sb fl h tasks pos)))
    /\ requests l' = batch_requests sb fl h tasks pos
    /\ error_toasts l' = []
    /\ success_toasts l' = [].
Proof.
  induction tasks as [|task rest IH]; intros e s pos lg n.
  - exists []. simpl. unfold ret. rewrite app_nil_r, !Nat.add_0_r. auto.
  - destruct (post_task_run sb fl h task e s pos lg n)
      as (l1 & Hrun1 & Hreq1 & Herr1 & Hok1).
    destruct (IH e s (pos + List.length (batch_requests sb fl h [task] pos))
                 (lg ++ l1)
                 (n + List.length (batch_requests sb fl h [task] pos)))
      as (l2 & Hrun2 & Hreq2 & Herr2 & Hok2).
    exists (l1 ++ l2).
    cbn [for_of]. unfold bind. rewrite Hrun1, Hrun2.
    rewrite (batch_requests_cons sb fl h task rest pos).
    rewrite length_app, !Nat.add_assoc, <- app_assoc.
    rewrite requests_app, error_toasts_app, success_toasts_app.
    rewrite Hreq1, Hreq2, Herr1, Herr2, Hok1, Hok2. auto.
Qed.

(** *** The inbox fetch *)

(** [fetchData] never throws, issues its two requests before anything else,
    and touches only [cards], [boards] and [loading]. *)
Lemma fetchData_run (e : env) (w : world Inbox.state) :
  exists l' s',
    Inbox.fetchData e w
    = (Val tt,
       World s'
             (log w ++ Sent (Request GET InboxCards Undefined (auth_of e))
                    :: Sent (Request GET Boards Undefined (auth_of e)) :: l')
             (S (S (issued w))))
    /\ requests l' = []
    /\ success_toasts l' = []
    /\ Inbox.showAIConverter s' = Inbox.showAIConverter (st w)
    /\ Inbox.inputText s' = Inbox.inputText (st w)
    /\ Inbox.extractedTasks s' = Inbox.extractedTasks (st w)
    /\ Inbox.selectedBoard s' = Inbox.selectedBoard (st w).
Proof.
  destruct w as [s lg n].
  unfold Inbox.fetchData. run_handler.
  destruct (backend e n) as [d1|r1]; [destruct (backend e (S n)) as [d2|r2]|];
    simpl; eexists; eexists; (split; [rewrite <- ?app_assoc; simpl; reflexivity|]);
    simpl; auto 10.
Qed.

(** When no card entry is [null] and the first list is an object, the
    throwing filter of line 131 is the plain filter. *)
Lemma filter_throwing_in_first_list fl cards :
  is_nullish fl = false ->
  forallb (fun c => negb (is_nullish c)) cards = true ->
  filter_throwing (Inbox.in_first_list fl) cards = Some (filter (belongs_to fl) cards).
Proof.
  intros Nfl. induction cards as [|c rest IH]; simpl; intros H; [reflexivity|].
  apply andb_true_iff in H. destruct H as [Hc Hrest].
  apply negb_true_iff in Hc.
  unfold Inbox.in_first_list at 1.
  rewrite (get_not_nullish _ "list_id" Hc), (get_not_nullish _ "id" Nfl).
  rewrite (IH Hrest). reflexivity.
Qed.

Lemma start_position_counts fl cards :
  is_nullish fl = false ->
  forallb (fun c => negb (is_nullish c)) cards = true ->
  Inbox.start_position fl cards = Some (List.length (filter (belongs_to fl) cards)).
Proof.
  intros Nfl Hc. unfold Inbox.start_position.
  now rewrite (filter_throwing_in_first_list fl cards Nfl Hc).
Qed.

(** *** The commit as a whole *)

(** Once the lists and the cards are fetched and the start position is
    computed, the commit runs to its end whatever the card posts answer. *)
Lemma addTasksToBoard_commits (s : Inbox.state) (e : env)
    listsData fl others cardsData position :
  truthy (Inbox.selectedBoard s) = true ->
  backend e 0 = Ok listsData ->
  array_or_empty listsData = fl :: others ->
  backend e 1 = Ok cardsData ->
  Inbox.start_position fl (array_or_empty cardsData) = Some position ->
  exists w',
    Inbox.addTasksToBoard s e (init s) = (Val tt, w')
    /\ requests (log w')
       = [Request GET (ListsOf (Inbox.selectedBoard s)) Undefined (auth_of e);
          Request GET (CardsOf (Inbox.selectedBoard s)) Undefined (auth_of e)]
         ++ batch_requests (Inbox.selectedBoard s) fl (auth_of e)
              (Inbox.extractedTasks s) position
         ++ [Request GET InboxCards Undefined (auth_of e);
             Request GET Boards Undefined (auth_of e)]
    /\ success_toasts (log w')
       = [Str (nat_to_string (List.length (Inbox.extractedTasks s))
               ++ " task(s) added to board!")%string]
    /\ Inbox.showAIConverter (st w') = false
    /\ Inbox.inputText (st w') = ""
    /\ Inbox.extractedTasks (st w') = []
    /\ Inbox.selectedBoard (st w') = Str "".
Proof.
  intros Hsb Hlists Hfl Hcards Hpos.
  unfold Inbox.addTasksToBoard. rewrite Hsb. simpl.
  unfold http.
  unfold try_catch at 1. unfold bind at 1. unfold bearer_header at 1.
  unfold bind at 1, ask at 1, ret at 1. fold (auth_of e).
  unfold bind at 1. unfold bind at 1, issue at 1, await at 1, init.
  cbn [issued log st]. rewrite Hlists. rewrite Hfl.
  unfold bind at 1. unfold bind at 1. unfold bind at 1, issue at 1, await at 1.
  cbn [issued log st]. rewrite Hcards. cbv zeta. rewrite Hpos.
  unfold bind at 1, eval at 1, ret at 1.
  unfold bind at 1, with_local. cbn [issued log st].
  destruct (for_of_post_task (Inbox.selectedBoard s) fl (auth_of e)
              (Inbox.extractedTasks s) e s position
              ([] ++ [Sent (Request GET (ListsOf (Inbox.selectedBoard s)) Undefined (auth_of e))]
                  ++ [Sent (Request GET (CardsOf (Inbox.selectedBoard s)) Undefined (auth_of e))])
              2)
    as (l1 & Hloop & Hreq1 & Herr1 & Hok1).
  simpl app in Hloop. simpl app. rewrite Hloop. cbn [issued log st fst].
  unfold bind at 1, toast_success at 1, emit at 1. cbn [issued log st].
  unfold bind at 1, modify at 1. cbn [issued log st].
  unfold bind at 1, modify at 1. cbn [issued log st].
  unfold bind at 1, modify at 1. cbn [issued log st].
  unfold bind at 1, modify at 1. cbn [issued log st].
  unfold detached, try_catch.
  match goal with
  | |- context [Inbox.fetchData e ?w] =>
      destruct (fetchData_run e w) as (l2 & s2 & Hf & Hreq2 & Hok2 & Ha & Hb & Hc & Hd)
  end.
  rewrite Hf. eexists. split; [reflexivity|].
  cbn [issued log st] in *.
  repeat split; try assumption.
  - unfold requests in *. rewrite !flat_map_app. simpl.
    rewrite Hreq1, Hreq2, app_nil_r. reflexivity.
  - unfold success_toasts in *. rewrite !flat_map_app. simpl.
    rewrite Hok1, Hok2. reflexivity.
Qed.

(** The card creations among the requests of a commit are the batch. *)
Lemma creations_of_commit sb fl h tasks pos first second third fourth :
  is_card_creation first = false ->
  is_card_creation second = false ->
  is_card_creation third = false ->
  is_card_creation fourth = false ->
  filter is_card_creation
    ([first; second] ++ batch_requests sb fl h tasks pos ++ [third; fourth])
  = batch_requests sb fl h tasks pos.
Proof.
  intros H1 H2 H3 H4. simpl. rewrite H1, H2, filter_app. simpl.
  rewrite H3, H4, app_nil_r. apply batch_requests_all_creations.
Qed.

Lemma addTasksToBoard_commits_creations (s : Inbox.state) (e : env)
    listsData fl others cardsData position :
  truthy (Inbox.selectedBoard s) = true ->
  backend e 0 = Ok listsData ->
  array_or_empty listsData = fl :: others ->
  backend e 1 = Ok cardsData ->
  Inbox.start_position fl (array_or_empty cardsData) = Some position ->
  card_creations (log (snd (Inbox.addTasksToBoard s e (init s))))
  = batch_requests (Inbox.selectedBoard s) fl (auth_of e)
      (Inbox.extractedTasks s) position.
Proof.
  intros Hsb Hl Hfl Hc Hp.
  destruct (addTasksToBoard_commits s e _ _ _ _ _ Hsb Hl Hfl Hc Hp)
    as (w' & Hrun & Hreq & _).
  rewrite Hrun. unfold card_creations. cbn [snd]. rewrite Hreq.
  now apply creations_of_commit.
Qed.

(** Whatever the inputs, the card creations of a commit are a batch (an
    empty one when the commit stops before its loop). *)
Lemma addTasksToBoard_creations (s : Inbox.state) (e : env) :
  exists fl position,
    card_creations (log (snd (Inbox.addTasksToBoard s e (init s))))
    = batch_requests (Inbox.selectedBoard s) fl (auth_of e)
        (Inbox.extractedTasks s) position
    \/ card_creations (log (snd (Inbox.addTasksToBoard s e (init s)))) = [].
Proof.
  destruct (truthy (Inbox.selectedBoard s)) eqn:Hsb.
  2:{ exists Undefined, 0. right.
      unfold Inbox.addTasksToBoard. rewrite Hsb. reflexivity. }
  destruct (backend e 0) as [listsData|r0] eqn:Hl.
  2:{ exists Undefined, 0. right.
      unfold Inbox.addTasksToBoard. rewrite Hsb. run_handler.
      rewrite Hl. reflexivity. }
  destruct (array_or_empty listsData) as [|fl others] eqn:Hfl.
  { exists Undefined, 0. right.
    unfold Inbox.addTasksToBoard. rewrite Hsb. run_handler.
    rewrite Hl, Hfl. reflexivity. }
  destruct (backend e 1) as [cardsData|r1] eqn:Hc.
  2:{ exists Undefined, 0. right.
      unfold Inbox.addTasksToBoard. rewrite Hsb. run_handler.
      rewrite Hl, Hfl. run_handler. rewrite Hc. reflexivity. }
  destruct (Inbox.start_position fl (array_or_empty cardsData)) as [position|] eqn:Hp.
  - exists fl, position. left.
    now apply (addTasksToBoard_commits_creations s e listsData fl others cardsData).
  - exists Undefined, 0. right.
    unfold Inbox.addTasksToBoard. rewrite Hsb. run_handler.
    rewrite Hl, Hfl. run_handler. rewrite Hc. cbv zeta. rewrite Hp. reflexivity.
Qed.

(** The batch of tasks that are all objects, for a first list with a usable
    id: one request per task, at consecutive positions, in task order. *)
Lemma batch_requests_positions sb fl h tasks :
  truthy (get_opt fl "id") = true ->
  truthy sb = true ->
  forallb (fun t => negb (is_nullish t)) tasks = true ->
  forall pos,
    batch_requests sb fl h tasks pos
    = map (fun '(i, task) => card_request sb fl h task i)
          (combine (seq pos (List.length tasks)) tasks).
Proof.
  intros Hid Hsb. induction tasks as [|t rest IH]; intros Hall pos; simpl;
    [reflexivity|].
  simpl in Hall. apply andb_true_iff in Hall. destruct Hall as [Ht Hrest].
  apply negb_true_iff in Ht. rewrite Hid, Hsb, Ht. simpl.
  now rewrite (IH Hrest).
Qed.

Lemma map_combine_seq_position sb fl h tasks :
  forall pos,
    map (body_field "position")
        (map (fun '(i, task) => card_request sb fl h task i)
             (combine (seq pos (List.length tasks)) tasks))
    = map (fun i => Num (Z.of_nat i)) (seq pos (List.length tasks)).
Proof.
  induction tasks as [|t rest IH]; intros pos; simpl; [reflexivity|].
  now rewrite IH.
Qed.

Lemma map_combine_seq_title sb fl h tasks :
  forall pos,
    map (body_field "title")
        (map (fun '(i, task) => card_request sb fl h task i)
             (combine (seq pos (List.length tasks)) tasks))
    = map (fun task => or_else (get_opt task "title") (Str "Untitled Task")) tasks.
Proof.
  induction tasks as [|t rest IH]; intros pos; simpl; [reflexivity|].
  now rewrite IH.
Qed.

Lemma length_combine_seq sb fl h tasks :
  forall pos,
    List.length (map (fun '(i, task) => card_request sb fl h task i)
                     (combine (seq pos (List.length tasks)) tasks))
    = List.length tasks.
Proof.
  intros pos. rewrite length_map, length_combine, length_seq. apply Nat.min_id.
Qed.

Lemma or_else_defaulted given dflt : defaulted given dflt (or_else given dflt).
Proof.
  unfold defaulted, or_else. destruct (truthy given); split; intros H;
    try discriminate; reflexivity.
Qed.

(** When the loop's guard holds, a batch is empty. *)
Lemma batch_requests_skipped sb fl h tasks :
  negb (truthy (get_opt fl "id")) || negb (truthy sb) = true ->
  forall pos, batch_requests sb fl h tasks pos = [].
Proof.
  intros G. induction tasks as [|t rest IH]; intros pos; simpl; [reflexivity|].
  rewrite G. apply IH.
Qed.

(** Otherwise its requests are, one for one and in order, those of the
    tasks that are not [null], each with the three defaults applied to its
    own task. *)
Lemma batch_requests_paired sb fl h tasks :
  negb (truthy (get_opt fl "id")) || negb (truthy sb) = false ->
  forall pos,
    Forall2 carries_defaults (postable_tasks tasks)
            (batch_requests sb fl h tasks pos).
Proof.
  intros G. unfold postable_tasks.
  induction tasks as [|t rest IH]; intros pos; simpl; [constructor|].
  rewrite G. destruct (is_nullish t); simpl; [apply IH|].
  constructor; [|apply IH].
  unfold carries_defaults, body_field, card_request. cbn.
  repeat split; apply or_else_defaulted.
Qed.

(* ===================================================================== *)
(** ** Inbox: committing extracted tasks to a board *)
(* ===================================================================== *)

(** The sample commit, run: two lists, two cards already in the first one,
    the first of the two posts refused. *)
Example two_tasks_commit_requests :
  map (fun r => (req_method r, req_endpoint r, body_field "position" r))
      (requests (log (snd (Inbox.addTasksToBoard two_tasks two_lists_env (init two_tasks)))))
  = [(GET, ListsOf (Str "B1"), Undefined);
     (GET, CardsOf (Str "B1"), Undefined);
     (POST, ListCards (Str "L1"), Num 2);
     (POST, ListCards (Str "L1"), Num 3);
     (GET, InboxCards, Undefined);
     (GET, Boards, Undefined)].
Proof. reflexivity. Qed.

(** The scenario of the specification: two tasks committed to a board with
    one list and no card give two card creations at positions 0 and 1 and
    the notification "2 task(s) added to board!". *)
Example two_tasks_on_empty_list :
  let w := snd (Inbox.addTasksToBoard two_tasks one_list_env (init two_tasks)) in
  map (body_field "position") (card_creations (log w)) = [Num 0; Num 1]
  /\ success_toasts (log w) = [Str "2 task(s) added to board!"]
  /\ error_toasts (log w) = [].
Proof. repeat split. Qed.

(** C1, as stated, fails: on a board whose first list has the id [0] the
    loop's guard [!firstList?.id] skips every task, so a commit of one task
    to a list holding no cards issues no card creation at all instead of one
    at position 0. *)
Lemma addTasksToBoard_positions_counterexample :
  truthy (Inbox.selectedBoard one_task) = true
  /\ backend zero_id_env 0 = Ok (Arr [Obj [("id", Num 0); ("title", Str "To do")]])
  /\ backend zero_id_env 1 = Ok (Arr [])
  /\ List.length (Inbox.extractedTasks one_task) = 1
  /\ card_creations (log (snd (Inbox.addTasksToBoard one_task zero_id_env (init one_task))))
     = []
  /\ map (body_field "position")
         (card_creations
            (log (snd (Inbox.addTasksToBoard one_task zero_id_env (init one_task)))))
     <> map (fun i => Num (Z.of_nat i))
            (seq 0 (List.length (Inbox.extractedTasks one_task))).
Proof.
  repeat split; try reflexivity.
  vm_compute. discriminate.
Qed.

(** C1 (amended): for a commit of N extracted tasks, none of them [null],
    to a board whose first list has a truthy id and whose fetched card set,
    free of [null] entries, holds M cards with [list_id === firstList.id],
    exactly N card creations are issued; their positions are M, M+1, ...,
    M+N-1 and they follow the order of the extracted-task array, whatever
    the backend answers to them. *)
Theorem addTasksToBoard_positions (s : Inbox.state) (e : env)
    (firstList : value) (otherLists : list value) (cardsData : value) :
  truthy (Inbox.selectedBoard s) = true ->
  backend e 0 = Ok (Arr (firstList :: otherLists)) ->
  backend e 1 = Ok cardsData ->
  truthy (get_opt firstList "id") = true ->
  forallb (fun c => negb (is_nullish c)) (array_or_empty cardsData) = true ->
  forallb (fun t => negb (is_nullish t)) (Inbox.extractedTasks s) = true ->
  let M := List.length (filter (belongs_to firstList) (array_or_empty cardsData)) in
  let N := List.length (Inbox.extractedTasks s) in
  let posts := card_creations (log (snd (Inbox.addTasksToBoard s e (init s)))) in
  List.length posts = N
  /\ map (body_field "position") posts = map (fun i => Num (Z.of_nat i)) (seq M N)
  /\ map (body_field "title") posts
     = map (fun task => or_else (get_opt task "title") (Str "Untitled Task"))
           (Inbox.extractedTasks s)
  /\ Forall (fun r => req_endpoint r = ListCards (get_opt firstList "id")) posts.
Proof.
  intros Hsb Hl Hc Hid Hcards Htasks M N posts.
  pose proof (truthy_get_opt_not_nullish _ _ Hid) as Nfl.
  pose proof (start_position_counts firstList _ Nfl Hcards) as Hp.
  assert (Hposts : posts
                   = batch_requests (Inbox.selectedBoard s) firstList (auth_of e)
                       (Inbox.extractedTasks s) M).
  { apply (addTasksToBoard_commits_creations s e (Arr (firstList :: otherLists))
             firstList otherLists cardsData M Hsb Hl eq_refl Hc Hp). }
  rewrite Hposts.
  rewrite (batch_requests_positions _ _ _ _ Hid Hsb Htasks M).
  repeat split.
  - apply length_combine_seq.
  - apply map_combine_seq_position.
  - apply map_combine_seq_title.
  - apply Forall_forall. intros r Hin. apply in_map_iff in Hin.
    destruct Hin as ([i task] & <- & _). reflexivity.
Qed.

Lemma addTasksToBoard_positions_witness :
  let posts := card_creations
                 (log (snd (Inbox.addTasksToBoard two_tasks two_lists_env (init two_tasks)))) in
  List.length posts = 2
  /\ map (body_field "position") posts = [Num 2; Num 3]
  /\ map (body_field "title") posts = [Str "Buy milk"; Str "Call Bob"]
  /\ Forall (fun r => req_endpoint r = ListCards (Str "L1")) posts.
Proof.
  exact (addTasksToBoard_positions two_tasks two_lists_env
           (Obj [("id", Str "L1"); ("title", Str "To do")])
           [Obj [("id", Str "L2"); ("title", Str "Done")]]
           (Arr [Obj [("id", Str "c1"); ("list_id", Str "L1")];
                 Obj [("id", Str "c2"); ("list_id", Str "L2")];
                 Obj [("id", Str "c3"); ("list_id", Str "L1")]])
           eq_refl eq_refl eq_refl eq_refl eq_refl eq_refl).
Defined.

(** C2: once the commit has reached its loop, what the backend answers to
    the card creations changes nothing: the handler ends normally, it issues
    the same card creations as when every one of them succeeds (all N of
    them when the tasks are objects and the first list has a truthy id), the
    dialog state is reset, and the inbox and the boards are requested again
    after the last card creation. *)
Theorem addTasksToBoard_post_failures_do_not_abort (s : Inbox.state) (e : env)
    (listsData firstList : value) (otherLists : list value) (cardsData : value)
    (position : nat) :
  truthy (Inbox.selectedBoard s) = true ->
  backend e 0 = Ok listsData ->
  array_or_empty listsData = firstList :: otherLists ->
  backend e 1 = Ok cardsData ->
  Inbox.start_position firstList (array_or_empty cardsData) = Some position ->
  let run := Inbox.addTasksToBoard s e (init s) in
  let unfailing := Inbox.addTasksToBoard s (succeeding_from 2 e) (init s) in
  fst run = Val tt
  /\ card_creations (log (snd run)) = card_creations (log (snd unfailing))
  /\ (truthy (get_opt firstList "id") = true ->
      forallb (fun t => negb (is_nullish t)) (Inbox.extractedTasks s) = true ->
      List.length (card_creations (log (snd run))) = List.length (Inbox.extractedTasks s))
  /\ Inbox.showAIConverter (st (snd run)) = false
  /\ Inbox.inputText (st (snd run)) = ""
  /\ Inbox.extractedTasks (st (snd run)) = []
  /\ Inbox.selectedBoard (st (snd run)) = Str ""
  /\ requests (log (snd run))
     = [Request GET (ListsOf (Inbox.selectedBoard s)) Undefined (auth_of e);
        Request GET (CardsOf (Inbox.selectedBoard s)) Undefined (auth_of e)]
       ++ card_creations (log (snd run))
       ++ [Request GET InboxCards Undefined (auth_of e);
           Request GET Boards Undefined (auth_of e)].
Proof.
  intros Hsb Hl Hfl Hc Hp run unfailing.
  pose proof (addTasksToBoard_commits_creations s e _ _ _ _ _ Hsb Hl Hfl Hc Hp) as Hcre.
  pose proof (addTasksToBoard_commits_creations s (succeeding_from 2 e)
                listsData firstList otherLists cardsData position Hsb Hl Hfl Hc Hp)
    as Hcre'.
  destruct (addTasksToBoard_commits s e _ _ _ _ _ Hsb Hl Hfl Hc Hp)
    as (w' & Hrun & Hreq & Hok & Ha & Hb & Hc' & Hd).
  fold run in Hcre, Hrun. fold unfailing in Hcre'.
  rewrite Hcre, Hcre'. rewrite Hrun. cbn [fst snd].
  repeat split; try assumption.
  intros Hid Htasks.
  rewrite (batch_requests_positions _ _ _ _ Hid Hsb Htasks position).
  apply length_combine_seq.
Qed.

Lemma addTasksToBoard_post_failures_do_not_abort_witness :
  let run := Inbox.addTasksToBoard two_tasks two_lists_env (init two_tasks) in
  let unfailing :=
    Inbox.addTasksToBoard two_tasks (succeeding_from 2 two_lists_env) (init two_tasks) in
  fst run = Val tt
  /\ card_creations (log (snd run)) = card_creations (log (snd unfailing))
  /\ (truthy (Str "L1") = true ->
      forallb (fun t => negb (is_nullish t)) (Inbox.extractedTasks two_tasks) = true ->
      List.length (card_creations (log (snd run))) = 2)
  /\ Inbox.showAIConverter (st (snd run)) = false
  /\ Inbox.inputText (st (snd run)) = ""
  /\ Inbox.extractedTasks (st (snd run)) = []
  /\ Inbox.selectedBoard (st (snd run)) = Str ""
  /\ requests (log (snd run))
     = [Request GET (ListsOf (Str "B1")) Undefined (auth_of two_lists_env);
        Request GET (CardsOf (Str "B1")) Undefined (auth_of two_lists_env)]
       ++ card_creations (log (snd run))
       ++ [Request GET InboxCards Undefined (auth_of two_lists_env);
           Request GET Boards Undefined (auth_of two_lists_env)].
Proof.
  exact (addTasksToBoard_post_failures_do_not_abort two_tasks two_lists_env
           (Arr [Obj [("id", Str "L1"); ("title", Str "To do")];
                 Obj [("id", Str "L2"); ("title", Str "Done")]])
           (Obj [("id", Str "L1"); ("title", Str "To do")])
           [Obj [("id", Str "L2"); ("title", Str "Done")]]
           (Arr [Obj [("id", Str "c1"); ("list_id", Str "L1")];
                 Obj [("id", Str "c2"); ("list_id", Str "L2")];
                 Obj [("id", Str "c3"); ("list_id", Str "L1")]])
           2 eq_refl eq_refl eq_refl eq_refl eq_refl).
Defined.

(** C3: when the fetched list set of the selected board is empty, the
    commit issues the lists request and nothing else (no card creation),
    shows exactly one error notification, and leaves the state as it was. *)
Theorem addTasksToBoard_no_lists (s : Inbox.state) (e : env) (listsData : value) :
  truthy (Inbox.selectedBoard s) = true ->
  backend e 0 = Ok listsData ->
  array_or_empty listsData = [] ->
  let w := snd (Inbox.addTasksToBoard s e (init s)) in
  card_creations (log w) = []
  /\ requests (log w)
     = [Request GET (ListsOf (Inbox.selectedBoard s)) Undefined (auth_of e)]
  /\ error_toasts (log w) = [Str "This board has no lists. Create a list first."]
  /\ success_toasts (log w) = []
  /\ st w = s.
Proof.
  intros Hsb Hl Hempty.
  unfold Inbox.addTasksToBoard. rewrite Hsb. run_handler.
  rewrite Hl, Hempty. run_handler. repeat split.
Qed.

Lemma addTasksToBoard_no_lists_witness :
  let w := snd (Inbox.addTasksToBoard two_tasks no_lists_env (init two_tasks)) in
  card_creations (log w) = []
  /\ requests (log w) = [Request GET (ListsOf (Str "B1")) Undefined (auth_of no_lists_env)]
  /\ error_toasts (log w) = [Str "This board has no lists. Create a list first."]
  /\ success_toasts (log w) = []
  /\ st w = two_tasks.
Proof.
  exact (addTasksToBoard_no_lists two_tasks no_lists_env (Arr []) eq_refl eq_refl eq_refl).
Defined.

(** C8, as stated, fails: a task whose title is present but is the empty
    string is posted under the title "Untitled Task", not under its own
    title. *)
Lemma addTasksToBoard_defaults_counterexample :
  map (fun task => get task "title") (Inbox.extractedTasks empty_title_task)
  = [Some (Str "")]
  /\ map (body_field "title")
         (card_creations
            (log (snd (Inbox.addTasksToBoard empty_title_task two_lists_env
                         (init empty_title_task)))))
     = [Str "Untitled Task"]
  /\ map (body_field "title")
         (card_creations
            (log (snd (Inbox.addTasksToBoard empty_title_task two_lists_env
                         (init empty_title_task)))))
     <> map (fun task => or_default (get_opt task "title") (Str "Untitled Task"))
            (Inbox.extractedTasks empty_title_task).
Proof.
  repeat split; try reflexivity.
  vm_compute. discriminate.
Qed.

(** C8 (amended): the card creations of a commit are, one for one and in
    the order of the extracted-task array, the requests of the tasks that
    are posted (those that are not [null]), and the request issued for a
    task carries that task's title when it is truthy and "Untitled Task"
    otherwise, that task's description when truthy and the empty string
    otherwise, that task's priority when truthy and "medium" otherwise.
    This holds whenever the commit reaches its loop for a first list with a
    truthy id; in every other run no card is posted at all. *)
Theorem addTasksToBoard_defaults (s : Inbox.state) (e : env) :
  let posts := card_creations (log (snd (Inbox.addTasksToBoard s e (init s)))) in
  (posts = []
   \/ Forall2 carries_defaults (postable_tasks (Inbox.extractedTasks s)) posts)
  /\ (forall listsData firstList otherLists cardsData position,
        truthy (Inbox.selectedBoard s) = true ->
        backend e 0 = Ok listsData ->
        array_or_empty listsData = firstList :: otherLists ->
        backend e 1 = Ok cardsData ->
        Inbox.start_position firstList (array_or_empty cardsData) = Some position ->
        truthy (get_opt firstList "id") = true ->
        Forall2 carries_defaults (postable_tasks (Inbox.extractedTasks s)) posts).
Proof.
  intros posts. split.
  - destruct (addTasksToBoard_creations s e) as (fl & position & [H|H]);
      [|now left].
    unfold posts. rewrite H.
    destruct (negb (truthy (get_opt fl "id"))
              || negb (truthy (Inbox.selectedBoard s))) eqn:G.
    + left. now apply batch_requests_skipped.
    + right. now apply batch_requests_paired.
  - intros listsData firstList otherLists cardsData position Hsb Hl Hfl Hc Hp Hid.
    unfold posts.
    rewrite (addTasksToBoard_commits_creations s e _ _ _ _ _ Hsb Hl Hfl Hc Hp).
    apply batch_requests_paired. now rewrite Hid, Hsb.
Qed.

(** An instance of the pairing: the two tasks of the sample dialog, posted
    to the board with two lists while the first post is refused. *)
Lemma addTasksToBoard_defaults_witness :
  Forall2 carries_defaults
    (postable_tasks (Inbox.extractedTasks two_tasks))
    (card_creations
       (log (snd (Inbox.addTasksToBoard two_tasks two_lists_env (init two_tasks))))).
Proof.
  exact (proj2 (addTasksToBoard_defaults two_tasks two_lists_env)
           (Arr [Obj [("id", Str "L1"); ("title", Str "To do")];
                 Obj [("id", Str "L2"); ("title", Str "Done")]])
           (Obj [("id", Str "L1"); ("title", Str "To do")])
           [Obj [("id", Str "L2"); ("title", Str "Done")]]
           (Arr [Obj [("id", Str "c1"); ("list_id", Str "L1")];
                 Obj [("id", Str "c2"); ("list_id", Str "L2")];
                 Obj [("id", Str "c3"); ("list_id", Str "L1")]])
           2 eq_refl eq_refl eq_refl eq_refl eq_refl eq_refl).
Defined.

(** The pairing at work: of three tasks with a [null] in the middle, the
    first and the third are posted, each under its own fields. *)
Example tasks_with_null_posted_in_order :
  map (fun r => (body_field "title" r, body_field "description" r,
                 body_field "priority" r, body_field "position" r))
      (card_creations
         (log (snd (Inbox.addTasksToBoard tasks_with_null two_lists_env
                      (init tasks_with_null)))))
  = [(Str "Buy milk", Str "", Str "medium", Num 2);
     (Str "Call Bob", Str "", Str "medium", Num 3)].
Proof. reflexivity. Qed.

(** C9: whenever the commit reaches the end of its loop, the one success
    notification reads "N task(s) added to board!" with N the length of the
    extracted-task array, whatever the backend answered to the card
    creations. *)
Theorem addTasksToBoard_reports_task_count (s : Inbox.state) (e : env)
    (listsData firstList : value) (otherLists : list value) (cardsData : value)
    (position : nat) :
  truthy (Inbox.selectedBoard s) = true ->
  backend e 0 = Ok listsData ->
  array_or_empty listsData = firstList :: otherLists ->
  backend e 1 = Ok cardsData ->
  Inbox.start_position firstList (array_or_empty cardsData) = Some position ->
  success_toasts (log (snd (Inbox.addTasksToBoard s e (init s))))
  = [Str (nat_to_string (List.length (Inbox.extractedTasks s))
          ++ " task(s) added to board!")%string].
Proof.
  intros Hsb Hl Hfl Hc Hp.
  destruct (addTasksToBoard_commits s e _ _ _ _ _ Hsb Hl Hfl Hc Hp)
    as (w' & Hrun & _ & Hok & _).
  now rewrite Hrun.
Qed.

Lemma addTasksToBoard_reports_task_count_witness :
  backend two_lists_env 2 = Fail (Some (Obj [("detail", Str "List not found")]))
  /\ success_toasts (log (snd (Inbox.addTasksToBoard two_tasks two_lists_env (init two_tasks))))
     = [Str "2 task(s) added to board!"].
Proof.
  split; [reflexivity|].
  exact (addTasksToBoard_reports_task_count two_tasks two_lists_env
           _ (Obj [("id", Str "L1"); ("title", Str "To do")])
           [Obj [("id", Str "L2"); ("title", Str "Done")]] _ 2
           eq_refl eq_refl eq_refl eq_refl eq_refl).
Defined.

(* ===================================================================== *)
(** ** Joint fetches *)
(* ===================================================================== *)

(** [fetchBoardData] is its call part followed by its resumption, so the
    handlers that start it without awaiting it run the function of the
    source. *)
Lemma fetchBoardData_cut (boardId : value) (e : env) (w : world BoardView.state) :
  BoardView.fetchBoardData boardId e w
  = (promises <- BoardView.fetchBoardData_call boardId ;;
     BoardView.fetchBoardData_resume promises) e w.
Proof.
  unfold BoardView.fetchBoardData, BoardView.fetchBoardData_call,
    BoardView.fetchBoardData_resume.
  run_handler. reflexivity.
Qed.



(* ===================================================================== *)
(** ** Client-side validation and confirmation *)
(* ===================================================================== *)

(** C5: a board creation whose title trims to the empty string issues no
    request, shows the error notification "Board title is required", and
    leaves the dialog flag and the form as they were. *)
Theorem createBoard_blank_title (s : Dashboard.state) (e : env) :
  trim (Dashboard.title (Dashboard.newBoardData s)) = "" ->
  Dashboard.createBoard s e (init s)
  = (Val tt, World s [ToastError (Str "Board title is required")] 0).
Proof.
  intros Hblank. unfold Dashboard.createBoard. rewrite Hblank. reflexivity.
Qed.

Lemma createBoard_blank_title_witness :
  Dashboard.createBoard blank_board_title accepting_env (init blank_board_title)
  = (Val tt, World blank_board_title [ToastError (Str "Board title is required")] 0).
Proof.
  exact (createBoard_blank_title blank_board_title accepting_env eq_refl).
Defined.

(** An accepted deletion, for comparison: the refetch is started before the
    dialog is closed and the notification shown, and settles after them. *)
Example deleteCard_accepted :
  BoardView.deleteCard (Str "B1") (Str "c1") one_list_env (init blank_list_title)
  = (Val tt,
     World (BoardView.setLoading false
              (BoardView.setCards (Arr [])
                 (BoardView.setLists (Arr [])
                    (BoardView.setBoard (Arr [])
                       (BoardView.setShowCardDialog false blank_list_title)))))
           [Confirm "Delete this card?";
            Sent (Request DELETE (CardById (Str "c1")) Undefined (auth_of one_list_env));
            Sent (Request GET (BoardById (Str "B1")) Undefined (auth_of one_list_env));
            Sent (Request GET (ListsOf (Str "B1")) Undefined (auth_of one_list_env));
            Sent (Request GET (CardsOf (Str "B1")) Undefined (auth_of one_list_env));
            ToastSuccess (Str "Card deleted")]
           4).
Proof. reflexivity. Qed.

(** C6: when the user declines the confirmation prompt, [deleteCard] issues
    no request and leaves the whole component state (board, lists, cards,
    dialogs) as it was; the prompt is the only thing that happened. *)
Theorem deleteCard_declined (boardId cardId : value) (s : BoardView.state) (e : env) :
  confirm_answer e = false ->
  BoardView.deleteCard boardId cardId e (init s)
  = (Val tt, World s [Confirm "Delete this card?"] 0).
Proof.
  intros Hno. unfold BoardView.deleteCard. run_handler. rewrite Hno. reflexivity.
Qed.

Lemma deleteCard_declined_witness :
  BoardView.deleteCard (Str "B1") (Str "c1") declining_env (init blank_list_title)
  = (Val tt, World blank_list_title [Confirm "Delete this card?"] 0).
Proof.
  exact (deleteCard_declined (Str "B1") (Str "c1") blank_list_title declining_env eq_refl).
Defined.

(** C7: when the backend answers a credential submission with a body
    holding [token] and [user], the [onLogin] callback is invoked exactly
    once, with that token and that user (in login and in registration mode,
    and whether or not the callback itself raises). *)
Theorem handleSubmit_calls_onLogin_once (s : Login.state) (e : env)
    (data token user : value) :
  backend e 0 = Ok data ->
  get data "token" = Some token ->
  get data "user" = Some user ->
  onLogin_calls (log (snd (Login.handleSubmit s e (init s)))) = [(token, user)].
Proof.
  intros Hok Htoken Huser.
  unfold Login.handleSubmit, Login.onLogin. run_handler.
  rewrite Hok, Htoken. run_handler. rewrite Huser. run_handler.
  destruct (onLogin_raises e); reflexivity.
Qed.

Lemma handleSubmit_calls_onLogin_once_witness :
  onLogin_calls (log (snd (Login.handleSubmit login_form accepting_env (init login_form))))
  = [(Str "t0k3n", Obj [("id", Str "u1"); ("name", Str "Ada")])].
Proof.
  exact (handleSubmit_calls_onLogin_once login_form accepting_env
           (Obj [("token", Str "t0k3n");
                 ("user", Obj [("id", Str "u1"); ("name", Str "Ada")])])
           (Str "t0k3n") (Obj [("id", Str "u1"); ("name", Str "Ada")])
           eq_refl eq_refl eq_refl).
Defined.

(** C10: with a title that trims to the empty string, [createList] returns
    without any effect at all (no request, no notification, no state
    change), whereas board creation and card creation in the same situation
    each show an error notification (and, like it, issue no request and
    change no state). *)
Theorem createList_blank_title_is_silent (boardId : value) (e : env)
    (sL sC : BoardView.state) (sD : Dashboard.state) :
  trim (BoardView.newListTitle sL) = "" ->
  trim (BoardView.title (BoardView.newCardData sC)) = "" ->
  trim (Dashboard.title (Dashboard.newBoardData sD)) = "" ->
  BoardView.createList boardId sL e (init sL) = (Val tt, World sL [] 0)
  /\ Dashboard.createBoard sD e (init sD)
     = (Val tt, World sD [ToastError (Str "Board title is required")] 0)
  /\ BoardView.handleCreateCard boardId sC e (init sC)
     = (Val tt, World sC [ToastError (Str "Card title is required")] 0).
Proof.
  intros HL HC HD. repeat split.
  - unfold BoardView.createList. now rewrite HL.
  - unfold Dashboard.createBoard. now rewrite HD.
  - unfold BoardView.handleCreateCard. now rewrite HC.
Qed.

Lemma createList_blank_title_is_silent_witness :
  BoardView.createList (Str "B1") blank_list_title accepting_env (init blank_list_title)
  = (Val tt, World blank_list_title [] 0)
  /\ Dashboard.createBoard blank_board_title accepting_env (init blank_board_title)
     = (Val tt, World blank_board_title [ToastError (Str "Board title is required")] 0)
  /\ BoardView.handleCreateCard (Str "B1") blank_list_title accepting_env
       (init blank_list_title)
     = (Val tt, World blank_list_title [ToastError (Str "Card title is required")] 0).
Proof.
  exact (createList_blank_title_is_silent (Str "B1") accepting_env
           blank_list_title blank_list_title blank_board_title
           eq_refl eq_refl eq_refl).
Defined.

(* ===================================================================== *)
(** ** Further properties of the Inbox handlers *)
(* ===================================================================== *)

(** Turns a "title is not blank" hypothesis into the test's outcome. *)
Ltac not_blank H := apply String.eqb_neq in H; rewrite H.

Lemma batch_requests_auth sb fl h tasks :
  forall pos, Forall (fun r => req_auth r = h) (batch_requests sb fl h tasks pos).
Proof.
  induction tasks as [|t rest IH]; intros pos; simpl; [constructor|].
  destruct (negb (truthy (get_opt fl "id")) || negb (truthy sb)); [apply IH|].
  destruct (is_nullish t); [apply IH|].
  constructor; [reflexivity | apply IH].
Qed.

Lemma batch_requests_consecutive sb fl h tasks :
  forall pos,
    map (body_field "position") (batch_requests sb fl h tasks pos)
    = map (fun i => Num (Z.of_nat i))
          (seq pos (List.length (batch_requests sb fl h tasks pos))).
Proof.
  induction tasks as [|t rest IH]; intros pos; simpl; [reflexivity|].
  destruct (negb (truthy (get_opt fl "id")) || negb (truthy sb)); [apply IH|].
  destruct (is_nullish t); [apply IH|].
  simpl. now rewrite IH.
Qed.

Lemma batch_requests_count sb fl h tasks :
  forall pos,
    List.length (batch_requests sb fl h tasks pos)
    = if truthy (get_opt fl "id") && truthy sb
      then List.length (filter (fun t => negb (is_nullish t)) tasks)
      else 0.
Proof.
  induction tasks as [|t rest IH]; intros pos; simpl.
  - now destruct (truthy (get_opt fl "id") && truthy sb).
  - destruct (truthy (get_opt fl "id")), (truthy sb); simpl; try apply IH.
    destruct (is_nullish t); simpl; rewrite IH; reflexivity.
Qed.

Lemma batch_requests_target sb fl h tasks :
  forall pos,
    Forall (fun r => req_endpoint r = ListCards (get_opt fl "id")
                     /\ body_field "list_id" r = get_opt fl "id"
                     /\ body_field "board_id" r = or_else (get_opt sb "id") sb)
           (batch_requests sb fl h tasks pos).
Proof.
  induction tasks as [|t rest IH]; intros pos; simpl; [constructor|].
  destruct (negb (truthy (get_opt fl "id")) || negb (truthy sb)); [apply IH|].
  destruct (is_nullish t); [apply IH|].
  constructor; [repeat split | apply IH].
Qed.

Lemma start_position_null_entry fl cards :
  existsb is_nullish cards = true -> Inbox.start_position fl cards = None.
Proof.
  unfold Inbox.start_position.
  induction cards as [|c rest IH]; simpl; intros H; [discriminate|].
  unfold Inbox.in_first_list at 1.
  destruct (is_nullish c) eqn:Nc.
  - now rewrite (get_nullish _ "list_id" Nc).
  - simpl in H. specialize (IH H).
    rewrite (get_not_nullish _ "list_id" Nc).
    destruct (get fl "id"); [|reflexivity].
    destruct (filter_throwing (Inbox.in_first_list fl) rest); [discriminate|reflexivity].
Qed.

(** X1: the two client-side checks of the inbox dialog.  A commit without a
    selected board and an extraction of blank text each show their one error
    notification, issue no request and change no state. *)
Theorem inbox_validation_rejects (sA sE : Inbox.state) (e : env) :
  truthy (Inbox.selectedBoard sA) = false ->
  trim (Inbox.inputText sE) = "" ->
  Inbox.addTasksToBoard sA e (init sA)
  = (Val tt, World sA [ToastError (Str "Please select a board")] 0)
  /\ Inbox.extractTasks sE e (init sE)
     = (Val tt, World sE [ToastError (Str "Please enter some text")] 0).
Proof.
  intros HA HE. split.
  - unfold Inbox.addTasksToBoard. now rewrite HA.
  - unfold Inbox.extractTasks. now rewrite HE.
Qed.

Lemma inbox_validation_rejects_witness :
  Inbox.addTasksToBoard nothing_chosen two_lists_env (init nothing_chosen)
  = (Val tt, World nothing_chosen [ToastError (Str "Please select a board")] 0)
  /\ Inbox.extractTasks nothing_chosen two_lists_env (init nothing_chosen)
     = (Val tt, World nothing_chosen [ToastError (Str "Please enter some text")] 0).
Proof.
  exact (inbox_validation_rejects nothing_chosen nothing_chosen two_lists_env
           eq_refl eq_refl).
Defined.

(** X2: when the lists request is refused, or the board has a list and the
    cards request is refused, the commit posts no card, shows the one error
    notification "Failed to add tasks" and leaves the dialog as it was (open,
    with the extracted tasks and the chosen board). *)
Theorem addTasksToBoard_fetch_refused (s : Inbox.state) (e : env) :
  truthy (Inbox.selectedBoard s) = true ->
  commit_fetch_refused e = true ->
  let w := snd (Inbox.addTasksToBoard s e (init s)) in
  card_creations (log w) = []
  /\ error_toasts (log w) = [Str "Failed to add tasks"]
  /\ success_toasts (log w) = []
  /\ st w = s.
Proof.
  intros Hsb Href. unfold commit_fetch_refused in Href.
  unfold Inbox.addTasksToBoard. rewrite Hsb. run_handler.
  destruct (backend e 0) as [listsData|r0].
  - destruct (array_or_empty listsData) as [|fl others]; [discriminate|].
    run_handler. destruct (backend e 1); [discriminate|]. repeat split.
  - repeat split.
Qed.

Lemma addTasksToBoard_fetch_refused_witness :
  let w := snd (Inbox.addTasksToBoard two_tasks cards_refused_env (init two_tasks)) in
  card_creations (log w) = []
  /\ error_toasts (log w) = [Str "Failed to add tasks"]
  /\ success_toasts (log w) = []
  /\ st w = two_tasks.
Proof.
  exact (addTasksToBoard_fetch_refused two_tasks cards_refused_env eq_refl eq_refl).
Defined.

(** X3: a [null] (or missing) entry in the fetched card array aborts the
    commit before its loop: reading its [list_id] throws, so no card is
    posted, "Failed to add tasks" is shown and the dialog stays as it was. *)
Theorem addTasksToBoard_null_card_aborts (s : Inbox.state) (e : env)
    (listsData firstList : value) (otherLists : list value) (cardsData : value) :
  truthy (Inbox.selectedBoard s) = true ->
  backend e 0 = Ok listsData ->
  array_or_empty listsData = firstList :: otherLists ->
  backend e 1 = Ok cardsData ->
  existsb is_nullish (array_or_empty cardsData) = true ->
  let w := snd (Inbox.addTasksToBoard s e (init s)) in
  card_creations (log w) = []
  /\ error_toasts (log w) = [Str "Failed to add tasks"]
  /\ success_toasts (log w) = []
  /\ st w = s.
Proof.
  intros Hsb Hl Hfl Hc Hnull.
  unfold Inbox.addTasksToBoard. rewrite Hsb. run_handler.
  rewrite Hl, Hfl. run_handler. rewrite Hc. cbv zeta.
  rewrite (start_position_null_entry firstList _ Hnull). repeat split.
Qed.

Lemma addTasksToBoard_null_card_aborts_witness :
  let w := snd (Inbox.addTasksToBoard two_tasks null_card_env (init two_tasks)) in
  card_creations (log w) = []
  /\ error_toasts (log w) = [Str "Failed to add tasks"]
  /\ success_toasts (log w) = []
  /\ st w = two_tasks.
Proof.
  exact (addTasksToBoard_null_card_aborts two_tasks null_card_env
           (Arr [Obj [("id", Str "L1"); ("title", Str "To do")]])
           (Obj [("id", Str "L1"); ("title", Str "To do")]) []
           (Arr [Obj [("id", Str "c1"); ("list_id", Str "L1")]; Null])
           eq_refl eq_refl eq_refl eq_refl eq_refl).
Defined.

(** X4: the positions of a commit have no gap and no repetition, whatever
    the tasks are: a [null] task is skipped without using up a position, so
    the k cards that are posted sit at start, start+1, ..., start+k-1; k is
    the number of tasks that are not [null] when the first list has a truthy
    id, and 0 otherwise. *)
Theorem addTasksToBoard_positions_gap_free (s : Inbox.state) (e : env)
    (listsData firstList : value) (otherLists : list value) (cardsData : value)
    (start : nat) :
  truthy (Inbox.selectedBoard s) = true ->
  backend e 0 = Ok listsData ->
  array_or_empty listsData = firstList :: otherLists ->
  backend e 1 = Ok cardsData ->
  Inbox.start_position firstList (array_or_empty cardsData) = Some start ->
  let posts := card_creations (log (snd (Inbox.addTasksToBoard s e (init s)))) in
  map (body_field "position") posts
  = map (fun i => Num (Z.of_nat i)) (seq start (List.length posts))
  /\ List.length posts
     = if truthy (get_opt firstList "id")
       then List.length (filter (fun t => negb (is_nullish t)) (Inbox.extractedTasks s))
       else 0.
Proof.
  intros Hsb Hl Hfl Hc Hp posts.
  assert (Hposts : posts
                   = batch_requests (Inbox.selectedBoard s) firstList (auth_of e)
                       (Inbox.extractedTasks s) start)
    by exact (addTasksToBoard_commits_creations s e _ _ _ _ _ Hsb Hl Hfl Hc Hp).
  rewrite Hposts. split.
  - apply batch_requests_consecutive.
  - rewrite batch_requests_count, Hsb, andb_true_r. reflexivity.
Qed.

Lemma addTasksToBoard_positions_gap_free_witness :
  let posts := card_creations
                 (log (snd (Inbox.addTasksToBoard tasks_with_null two_lists_env
                              (init tasks_with_null)))) in
  map (body_field "position") posts
  = map (fun i => Num (Z.of_nat i)) (seq 2 (List.length posts))
  /\ List.length posts = 2.
Proof.
  exact (addTasksToBoard_positions_gap_free tasks_with_null two_lists_env
           (Arr [Obj [("id", Str "L1"); ("title", Str "To do")];
                 Obj [("id", Str "L2"); ("title", Str "Done")]])
           (Obj [("id", Str "L1"); ("title", Str "To do")])
           [Obj [("id", Str "L2"); ("title", Str "Done")]]
           (Arr [Obj [("id", Str "c1"); ("list_id", Str "L1")];
                 Obj [("id", Str "c2"); ("list_id", Str "L2")];
                 Obj [("id", Str "c3"); ("list_id", Str "L1")]])
           2 eq_refl eq_refl eq_refl eq_refl eq_refl).
Defined.

(** With the lists fetched, the card creations are a batch for the first
    list (an empty one when the commit stops at the cards). *)
Lemma addTasksToBoard_creations_first_list (s : Inbox.state) (e : env)
    listsData fl others :
  truthy (Inbox.selectedBoard s) = true ->
  backend e 0 = Ok listsData ->
  array_or_empty listsData = fl :: others ->
  exists position,
    card_creations (log (snd (Inbox.addTasksToBoard s e (init s))))
    = batch_requests (Inbox.selectedBoard s) fl (auth_of e)
        (Inbox.extractedTasks s) position
    \/ card_creations (log (snd (Inbox.addTasksToBoard s e (init s)))) = [].
Proof.
  intros Hsb Hl Hfl.
  destruct (backend e 1) as [cardsData|r1] eqn:Hc.
  2:{ exists 0. right.
      unfold Inbox.addTasksToBoard. rewrite Hsb. run_handler.
      rewrite Hl, Hfl. run_handler. rewrite Hc. reflexivity. }
  destruct (Inbox.start_position fl (array_or_empty cardsData)) as [position|] eqn:Hp.
  - exists position. left.
    now apply (addTasksToBoard_commits_creations s e listsData fl others cardsData).
  - exists 0. right.
    unfold Inbox.addTasksToBoard. rewrite Hsb. run_handler.
    rewrite Hl, Hfl. run_handler. rewrite Hc. cbv zeta. rewrite Hp. reflexivity.
Qed.

(** X5: every card a commit posts goes to the first list of the fetched
    lists, never to another one: its endpoint and its [list_id] are that
    list's id, and its [board_id] is the board chosen in the dialog. *)
Theorem addTasksToBoard_posts_target_first_list (s : Inbox.state) (e : env)
    (board : string) (listsData firstList : value) (otherLists : list value) :
  Inbox.selectedBoard s = Str board ->
  board <> "" ->
  backend e 0 = Ok listsData ->
  array_or_empty listsData = firstList :: otherLists ->
  Forall (fun r => req_endpoint r = ListCards (get_opt firstList "id")
                   /\ body_field "list_id" r = get_opt firstList "id"
                   /\ body_field "board_id" r = Str board)
         (card_creations (log (snd (Inbox.addTasksToBoard s e (init s))))).
Proof.
  intros Hboard Hne Hl Hfl.
  assert (Hsb : truthy (Inbox.selectedBoard s) = true).
  { rewrite Hboard. simpl. apply String.eqb_neq in Hne. now rewrite Hne. }
  destruct (addTasksToBoard_creations_first_list s e _ _ _ Hsb Hl Hfl)
    as (position & [H|H]); rewrite H; [|constructor].
  pose proof (batch_requests_target (Inbox.selectedBoard s) firstList (auth_of e)
                (Inbox.extractedTasks s) position) as Ht.
  rewrite Hboard in *. exact Ht.
Qed.

Lemma addTasksToBoard_posts_target_first_list_witness :
  Forall (fun r => req_endpoint r = ListCards (Str "L1")
                   /\ body_field "list_id" r = Str "L1"
                   /\ body_field "board_id" r = Str "B1")
         (card_creations
            (log (snd (Inbox.addTasksToBoard two_tasks two_lists_env (init two_tasks))))).
Proof.
  apply (addTasksToBoard_posts_target_first_list two_tasks two_lists_env "B1"
           (Arr [Obj [("id", Str "L1"); ("title", Str "To do")];
                 Obj [("id", Str "L2"); ("title", Str "Done")]])
           (Obj [("id", Str "L1"); ("title", Str "To do")])
           [Obj [("id", Str "L2"); ("title", Str "Done")]]);
    [reflexivity | discriminate | reflexivity | reflexivity].
Defined.

(** X6: the commit handler never throws, whatever the backend answers and
    whatever the fetched data look like (every failure ends in a
    notification or in the console), and every request it issues carries
    the bearer header built from the stored token. *)
Theorem addTasksToBoard_never_throws (s : Inbox.state) (e : env) :
  fst (Inbox.addTasksToBoard s e (init s)) = Val tt
  /\ Forall (fun r => req_auth r = auth_of e)
            (requests (log (snd (Inbox.addTasksToBoard s e (init s))))).
Proof.
  destruct (truthy (Inbox.selectedBoard s)) eqn:Hsb.
  2:{ unfold Inbox.addTasksToBoard. rewrite Hsb. split; [reflexivity|constructor]. }
  destruct (backend e 0) as [listsData|r0] eqn:Hl.
  2:{ unfold Inbox.addTasksToBoard. rewrite Hsb. run_handler. rewrite Hl.
      split; [reflexivity|repeat constructor]. }
  destruct (array_or_empty listsData) as [|fl others] eqn:Hfl.
  { unfold Inbox.addTasksToBoard. rewrite Hsb. run_handler. rewrite Hl, Hfl.
    split; [reflexivity|repeat constructor]. }
  destruct (backend e 1) as [cardsData|r1] eqn:Hc.
  2:{ unfold Inbox.addTasksToBoard. rewrite Hsb. run_handler.
      rewrite Hl, Hfl. run_handler. rewrite Hc.
      split; [reflexivity|repeat constructor]. }
  destruct (Inbox.start_position fl (array_or_empty cardsData)) as [position|] eqn:Hp.
  - destruct (addTasksToBoard_commits s e _ _ _ _ _ Hsb Hl Hfl Hc Hp)
      as (w' & Hrun & Hreq & _).
    rewrite Hrun. cbn [fst snd]. split; [reflexivity|]. rewrite Hreq.
    repeat (apply Forall_cons; [reflexivity|]).
    apply Forall_app. split; [apply batch_requests_auth|repeat constructor].
  - unfold Inbox.addTasksToBoard. rewrite Hsb. run_handler.
    rewrite Hl, Hfl. run_handler. rewrite Hc. cbv zeta. rewrite Hp.
    split; [reflexivity|repeat constructor].
Qed.

(** X7: an extraction that is answered sends the text as typed, replaces the
    extracted tasks by the answer's [tasks] array, or by no task at all when
    [tasks] is not an array, shows the success notification either way, and
    ends with [extracting] cleared; nothing else of the state changes. *)
Theorem extractTasks_stores_tasks (s : Inbox.state) (e : env) (data tasks : value) :
  trim (Inbox.inputText s) <> "" ->
  backend e 0 = Ok data ->
  get data "tasks" = Some tasks ->
  Inbox.extractTasks s e (init s)
  = (Val tt,
     World (Inbox.setExtracting false
              (Inbox.setExtractedTasks (array_or_empty tasks) s))
           [Sent (Request POST AiExtractTasks
                    (Obj [("text", Str (Inbox.inputText s))]) (auth_of e));
            ToastSuccess (Str "Tasks extracted! Review and select a board to add them.")]
           1).
Proof.
  intros Hne Hok Htasks.
  unfold Inbox.extractTasks. not_blank Hne. run_handler.
  rewrite Hok. run_handler. rewrite Htasks. reflexivity.
Qed.

Lemma extractTasks_stores_tasks_witness :
  Inbox.extractTasks two_tasks extracting_env (init two_tasks)
  = (Val tt,
     World (Inbox.setExtracting false
              (Inbox.setExtractedTasks
                 (array_or_empty (Arr [Obj [("title", Str "Buy milk")];
                                       Obj [("title", Str "Call Bob")]]))
                 two_tasks))
           [Sent (Request POST AiExtractTasks
                    (Obj [("text", Str (Inbox.inputText two_tasks))])
                    (auth_of extracting_env));
            ToastSuccess (Str "Tasks extracted! Review and select a board to add them.")]
           1).
Proof.
  apply (extractTasks_stores_tasks two_tasks extracting_env
           (Obj [("tasks", Arr [Obj [("title", Str "Buy milk")];
                                Obj [("title", Str "Call Bob")]])]));
    [discriminate | reflexivity | reflexivity].
Defined.

(** X8: an extraction that is refused, or answered with a [null] body,
    leaves the previously extracted tasks (and everything but [extracting])
    untouched, shows "Failed to extract tasks" and no success notification,
    and ends with [extracting] cleared. *)
Theorem extractTasks_failure_keeps_tasks (s : Inbox.state) (e : env) :
  trim (Inbox.inputText s) <> "" ->
  answer_unusable (backend e 0) = true ->
  let w := snd (Inbox.extractTasks s e (init s)) in
  st w = Inbox.setExtracting false s
  /\ error_toasts (log w) = [Str "Failed to extract tasks"]
  /\ success_toasts (log w) = []
  /\ requests (log w)
     = [Request POST AiExtractTasks (Obj [("text", Str (Inbox.inputText s))]) (auth_of e)].
Proof.
  intros Hne Hfail.
  unfold Inbox.extractTasks. not_blank Hne. run_handler.
  destruct (backend e 0) as [d|r]; simpl in Hfail.
  - run_handler. rewrite (get_nullish _ "tasks" Hfail). repeat split.
  - repeat split.
Qed.

Lemma extractTasks_failure_keeps_tasks_witness :
  let w := snd (Inbox.extractTasks two_tasks unreachable_env (init two_tasks)) in
  st w = Inbox.setExtracting false two_tasks
  /\ error_toasts (log w) = [Str "Failed to extract tasks"]
  /\ success_toasts (log w) = []
  /\ requests (log w)
     = [Request POST AiExtractTasks (Obj [("text", Str (Inbox.inputText two_tasks))])
          (auth_of unreachable_env)].
Proof.
  apply (extractTasks_failure_keeps_tasks two_tasks unreachable_env);
    [discriminate | reflexivity].
Defined.

(** X9: [fetchData] never throws, always issues exactly its two requests,
    always ends with [loading] cleared and never touches the dialog (open
    flag, text, extracted tasks, chosen board, [extracting]); when both
    requests are answered it stores the two answers, an answer that is not
    an array as the empty list, and shows no notification. *)
Theorem fetchData_refreshes (s : Inbox.state) (e : env) :
  let w := snd (Inbox.fetchData e (init s)) in
  fst (Inbox.fetchData e (init s)) = Val tt
  /\ requests (log w)
     = [Request GET InboxCards Undefined (auth_of e);
        Request GET Boards Undefined (auth_of e)]
  /\ Inbox.loading (st w) = false
  /\ (Inbox.showAIConverter (st w), Inbox.inputText (st w),
      Inbox.extractedTasks (st w), Inbox.selectedBoard (st w), Inbox.extracting (st w))
     = (Inbox.showAIConverter s, Inbox.inputText s,
        Inbox.extractedTasks s, Inbox.selectedBoard s, Inbox.extracting s)
  /\ (forall c b,
        backend e 0 = Ok c -> backend e 1 = Ok b ->
        Inbox.cards (st w) = array_or_empty c
        /\ Inbox.boards (st w) = array_or_empty b
        /\ error_toasts (log w) = []).
Proof.
  unfold Inbox.fetchData. run_handler.
  destruct (backend e 0) as [c0|r0]; [destruct (backend e 1) as [b0|r1]|];
    (split; [reflexivity|split; [reflexivity|split; [reflexivity|split;
       [reflexivity|intros c b Hc Hb; try discriminate]]]]).
  injection Hc as <-. injection Hb as <-. repeat split.
Qed.

(* ===================================================================== *)
(** ** Further properties of the BoardView handlers *)
(* ===================================================================== *)

(** Unfolds the board refetch wherever a handler runs it. *)
Ltac run_board_handler :=
  unfold BoardView.settle, BoardView.fetchBoardData, BoardView.fetchBoardData_call,
    BoardView.fetchBoardData_resume;
  run_handler.

(** X10: [fetchBoardData] never throws, always issues exactly its three
    requests, always ends with [loading] cleared, and never touches the
    typed list title, the new-card form, the dialog flags or the card shown
    in the detail dialog; when all three requests are answered it stores the
    three answers as they are and shows no notification. *)
Theorem fetchBoardData_reloads (boardId : value) (s : BoardView.state) (e : env) :
  let w := snd (BoardView.fetchBoardData boardId e (init s)) in
  fst (BoardView.fetchBoardData boardId e (init s)) = Val tt
  /\ requests (log w)
     = [Request GET (BoardById boardId) Undefined (auth_of e);
        Request GET (ListsOf boardId) Undefined (auth_of e);
        Request GET (CardsOf boardId) Undefined (auth_of e)]
  /\ BoardView.loading (st w) = false
  /\ (BoardView.newListTitle (st w), BoardView.selectedCard (st w),
      BoardView.showCardDialog (st w), BoardView.newCardData (st w),
      BoardView.showNewCardDialog (st w))
     = (BoardView.newListTitle s, BoardView.selectedCard s,
        BoardView.showCardDialog s, BoardView.newCardData s,
        BoardView.showNewCardDialog s)
  /\ (forall b l c,
        backend e 0 = Ok b -> backend e 1 = Ok l -> backend e 2 = Ok c ->
        BoardView.board (st w) = b
        /\ BoardView.lists (st w) = l
        /\ BoardView.cards (st w) = c
        /\ error_toasts (log w) = []).
Proof.
  run_board_handler.
  destruct (backend e 0) as [b0|r0];
    [destruct (backend e 1) as [l0|r1]; [destruct (backend e 2) as [c0|r2]|]|];
    (split; [reflexivity|split; [reflexivity|split; [reflexivity|split;
       [reflexivity|intros b l c Hb Hl Hc; try discriminate]]]]).
  injection Hb as <-. injection Hl as <-. injection Hc as <-. repeat split.
Qed.

(** X11: a list created from a non-blank title while the stored lists are
    an array of n lists is posted with the title as typed and the position
    n; once the post is answered the typed title is cleared, the board is
    requested again and "List created!" is shown, whatever the refetch
    answers. *)
Theorem createList_appends_at_end (boardId : value) (s : BoardView.state) (e : env)
    (items : list value) (answer : value) :
  trim (BoardView.newListTitle s) <> "" ->
  BoardView.lists s = Arr items ->
  backend e 0 = Ok answer ->
  let w := snd (BoardView.createList boardId s e (init s)) in
  requests (log w)
  = [Request POST (BoardLists boardId)
       (Obj [("title", Str (BoardView.newListTitle s));
             ("board_id", boardId);
             ("position", Num (Z.of_nat (List.length items)))])
       (auth_of e);
     Request GET (BoardById boardId) Undefined (auth_of e);
     Request GET (ListsOf boardId) Undefined (auth_of e);
     Request GET (CardsOf boardId) Undefined (auth_of e)]
  /\ success_toasts (log w) = [Str "List created!"]
  /\ BoardView.newListTitle (st w) = "".
Proof.
  intros Hne Hlists Hok.
  unfold BoardView.createList. not_blank Hne. run_board_handler.
  rewrite Hlists. cbn [get String.eqb Ascii.eqb Bool.eqb]. run_board_handler.
  rewrite Hok. run_board_handler.
  destruct (backend e 1); [destruct (backend e 2); [destruct (backend e 3)|]|];
    repeat split.
Qed.

Lemma createList_appends_at_end_witness :
  let w := snd (BoardView.createList (Str "B1") loaded_board one_list_env
                  (init loaded_board)) in
  requests (log w)
  = [Request POST (BoardLists (Str "B1"))
       (Obj [("title", Str (BoardView.newListTitle loaded_board));
             ("board_id", Str "B1");
             ("position", Num (Z.of_nat (List.length
                [Obj [("id", Str "L1"); ("title", Str "To do")];
                 Obj [("id", Str "L2"); ("title", Str "Done")]])))])
       (auth_of one_list_env);
     Request GET (BoardById (Str "B1")) Undefined (auth_of one_list_env);
     Request GET (ListsOf (Str "B1")) Undefined (auth_of one_list_env);
     Request GET (CardsOf (Str "B1")) Undefined (auth_of one_list_env)]
  /\ success_toasts (log w) = [Str "List created!"]
  /\ BoardView.newListTitle (st w) = "".
Proof.
  apply (createList_appends_at_end (Str "B1") loaded_board one_list_env
           [Obj [("id", Str "L1"); ("title", Str "To do")];
            Obj [("id", Str "L2"); ("title", Str "Done")]]
           (Arr [Obj [("id", Str "L1"); ("title", Str "To do")]]));
    [discriminate | reflexivity | reflexivity].
Defined.

(** X12: a list creation that fails, because the post is refused or because
    the stored lists are [null] so that the position cannot be read, shows
    "Failed to create list" and changes nothing: the typed title is kept and
    no refetch is started; in the second case no request is issued at
    all. *)
Theorem createList_failure_changes_nothing (boardId : value) (s : BoardView.state)
    (e : env) :
  trim (BoardView.newListTitle s) <> "" ->
  is_nullish (BoardView.lists s) || failed (backend e 0) = true ->
  let w := snd (BoardView.createList boardId s e (init s)) in
  st w = s
  /\ error_toasts (log w) = [Str "Failed to create list"]
  /\ success_toasts (log w) = []
  /\ Forall (fun r => req_method r = POST) (requests (log w))
  /\ (is_nullish (BoardView.lists s) = true -> requests (log w) = []).
Proof.
  intros Hne Hfail.
  unfold BoardView.createList. not_blank Hne. run_board_handler.
  destruct (is_nullish (BoardView.lists s)) eqn:Hn.
  - rewrite (get_nullish _ "length" Hn). repeat split. constructor.
  - rewrite (get_not_nullish _ "length" Hn). run_board_handler.
    simpl in Hfail. destruct (backend e 0); [discriminate|].
    repeat split; try discriminate. repeat constructor.
Qed.

Lemma createList_failure_changes_nothing_witness :
  let w := snd (BoardView.createList (Str "B1") board_without_lists one_list_env
                  (init board_without_lists)) in
  st w = board_without_lists
  /\ error_toasts (log w) = [Str "Failed to create list"]
  /\ success_toasts (log w) = []
  /\ Forall (fun r => req_method r = POST) (requests (log w))
  /\ (is_nullish (BoardView.lists board_without_lists) = true -> requests (log w) = []).
Proof.
  apply (createList_failure_changes_nothing (Str "B1") board_without_lists one_list_env);
    [discriminate | reflexivity].
Defined.

(** X13: a card created from a non-blank title is posted to the list the
    form was opened for, with an empty description and, as position, the
    number of stored cards whose [list_id] is that list's id; once the post
    is answered the board is requested again, the dialog is closed, the form
    is reset and "Card created!" is shown, whatever the refetch answers. *)
Theorem handleCreateCard_appends_to_list (boardId : value) (s : BoardView.state)
    (e : env) (inList : list value) (answer : value) :
  trim (BoardView.title (BoardView.newCardData s)) <> "" ->
  BoardView.cards_of_list (BoardView.cards s) (BoardView.listId (BoardView.newCardData s))
  = Some inList ->
  backend e 0 = Ok answer ->
  let w := snd (BoardView.handleCreateCard boardId s e (init s)) in
  requests (log w)
  = [Request POST (ListCards (BoardView.listId (BoardView.newCardData s)))
       (Obj [("title", Str (BoardView.title (BoardView.newCardData s)));
             ("description", Str "");
             ("list_id", BoardView.listId (BoardView.newCardData s));
             ("board_id", boardId);
             ("position", Num (Z.of_nat (List.length inList)))])
       (auth_of e);
     Request GET (BoardById boardId) Undefined (auth_of e);
     Request GET (ListsOf boardId) Undefined (auth_of e);
     Request GET (CardsOf boardId) Undefined (auth_of e)]
  /\ success_toasts (log w) = [Str "Card created!"]
  /\ BoardView.showNewCardDialog (st w) = false
  /\ BoardView.newCardData (st w) = BoardView.NewCard "" (Str "").
Proof.
  intros Hne Hin Hok.
  unfold BoardView.handleCreateCard. not_blank Hne. run_board_handler.
  rewrite Hin. run_board_handler. rewrite Hok. run_board_handler.
  destruct (backend e 1); [destruct (backend e 2); [destruct (backend e 3)|]|];
    repeat split.
Qed.

Lemma handleCreateCard_appends_to_list_witness :
  let w := snd (BoardView.handleCreateCard (Str "B1") loaded_board one_list_env
                  (init loaded_board)) in
  requests (log w)
  = [Request POST (ListCards (Str "L1"))
       (Obj [("title", Str "Write report");
             ("description", Str "");
             ("list_id", Str "L1");
             ("board_id", Str "B1");
             ("position", Num 2)])
       (auth_of one_list_env);
     Request GET (BoardById (Str "B1")) Undefined (auth_of one_list_env);
     Request GET (ListsOf (Str "B1")) Undefined (auth_of one_list_env);
     Request GET (CardsOf (Str "B1")) Undefined (auth_of one_list_env)]
  /\ success_toasts (log w) = [Str "Card created!"]
  /\ BoardView.showNewCardDialog (st w) = false
  /\ BoardView.newCardData (st w) = BoardView.NewCard "" (Str "").
Proof.
  apply (handleCreateCard_appends_to_list (Str "B1") loaded_board one_list_env
           [Obj [("id", Str "c1"); ("list_id", Str "L1")];
            Obj [("id", Str "c3"); ("list_id", Str "L1")]]
           (Arr [Obj [("id", Str "L1"); ("title", Str "To do")]]));
    [discriminate | reflexivity | reflexivity].
Defined.

(** X14: a card creation whose post is refused shows "Failed to create
    card" and changes nothing: the dialog stays open with the typed title
    and no refetch is started. *)
Theorem handleCreateCard_refused (boardId : value) (s : BoardView.state) (e : env) :
  trim (BoardView.title (BoardView.newCardData s)) <> "" ->
  failed (backend e 0) = true ->
  let w := snd (BoardView.handleCreateCard boardId s e (init s)) in
  st w = s
  /\ error_toasts (log w) = [Str "Failed to create card"]
  /\ success_toasts (log w) = []
  /\ Forall (fun r => req_method r = POST) (requests (log w)).
Proof.
  intros Hne Hfail.
  unfold BoardView.handleCreateCard. not_blank Hne. run_board_handler.
  destruct (BoardView.cards_of_list (BoardView.cards s)
              (BoardView.listId (BoardView.newCardData s))).
  - run_board_handler. destruct (backend e 0); [discriminate|].
    repeat split. repeat constructor.
  - repeat split. constructor.
Qed.

Lemma handleCreateCard_refused_witness :
  let w := snd (BoardView.handleCreateCard (Str "B1") loaded_board unreachable_env
                  (init loaded_board)) in
  st w = loaded_board
  /\ error_toasts (log w) = [Str "Failed to create card"]
  /\ success_toasts (log w) = []
  /\ Forall (fun r => req_method r = POST) (requests (log w)).
Proof.
  apply (handleCreateCard_refused (Str "B1") loaded_board unreachable_env);
    [discriminate | reflexivity].
Defined.

Lemma filter_throwing_ext (p q : value -> option bool) (l : list value) :
  (forall x, p x = q x) -> filter_throwing p l = filter_throwing q l.
Proof.
  intros Hext. induction l as [|x rest IH]; simpl; [reflexivity|].
  now rewrite Hext, IH.
Qed.

Lemma filter_throwing_In (p : value -> option bool) (l kept : list value) (c : value) :
  filter_throwing p l = Some kept -> In c kept -> In c l /\ p c = Some true.
Proof.
  revert kept. induction l as [|x rest IH]; simpl; intros kept Hf Hin.
  - injection Hf as <-. contradiction.
  - destruct (p x) as [b|] eqn:Hp; [|discriminate].
    destruct (filter_throwing p rest) as [kept'|]; [|discriminate].
    injection Hf as <-. destruct b.
    + destruct Hin as [<-|Hin]; [now split; [left|]|].
      destruct (IH kept' eq_refl Hin) as [H1 H2]. split; [now right|exact H2].
    + destruct (IH kept' eq_refl Hin) as [H1 H2]. split; [now right|exact H2].
Qed.

Lemma strict_eq_common (a b c : value) :
  strict_eq a b = true -> strict_eq a c = true -> strict_eq b c = true.
Proof.
  destruct a, b; simpl; try discriminate; destruct c; simpl; try discriminate;
    intros H1 H2; try reflexivity.
  - apply Bool.eqb_prop in H1, H2. subst. apply Bool.eqb_reflx.
  - apply Z.eqb_eq in H1, H2. subst. apply Z.eqb_refl.
  - apply String.eqb_eq in H1, H2. subst. apply String.eqb_refl.
Qed.

Lemma listCards_cards_of_list (cards lst : value) :
  is_nullish lst = false ->
  BoardView.listCards cards lst = BoardView.cards_of_list cards (get_opt lst "id").
Proof.
  intros Hn. unfold BoardView.listCards, BoardView.cards_of_list.
  destruct cards; try reflexivity.
  apply filter_throwing_ext. intros x.
  now rewrite (get_not_nullish _ "id" Hn).
Qed.

(** X15: a new card is appended to what its column shows.  For a list of
    the rendered board, the position posted for a card created in that list
    is the number of cards the board renders in the list's column, and the
    card is posted to that list, whatever the backend then answers. *)
Theorem handleCreateCard_position_is_column_size (boardId : value)
    (s : BoardView.state) (e : env) (lst : value) (column : list value) :
  is_nullish lst = false ->
  BoardView.listCards (BoardView.cards s) lst = Some column ->
  BoardView.listId (BoardView.newCardData s) = get_opt lst "id" ->
  trim (BoardView.title (BoardView.newCardData s)) <> "" ->
  let posts := card_creations (log (snd (BoardView.handleCreateCard boardId s e (init s)))) in
  map (body_field "position") posts = [Num (Z.of_nat (List.length column))]
  /\ map req_endpoint posts = [ListCards (get_opt lst "id")].
Proof.
  intros Hn Hcol Hid Hne posts. subst posts.
  rewrite (listCards_cards_of_list _ _ Hn), <- Hid in Hcol.
  unfold BoardView.handleCreateCard. not_blank Hne. run_board_handler.
  rewrite Hcol, <- Hid. run_board_handler.
  destruct (backend e 0); run_board_handler;
    [destruct (backend e 1); [destruct (backend e 2); [destruct (backend e 3)|]|]|];
    repeat split.
Qed.

Lemma handleCreateCard_position_is_column_size_witness :
  let posts := card_creations
                 (log (snd (BoardView.handleCreateCard (Str "B1") loaded_board
                              unreachable_env (init loaded_board)))) in
  map (body_field "position") posts
  = [Num (Z.of_nat (List.length [Obj [("id", Str "c1"); ("list_id", Str "L1")];
                                 Obj [("id", Str "c3"); ("list_id", Str "L1")]]))]
  /\ map req_endpoint posts
     = [ListCards (get_opt (Obj [("id", Str "L1"); ("title", Str "To do")]) "id")].
Proof.
  apply (handleCreateCard_position_is_column_size (Str "B1") loaded_board
           unreachable_env (Obj [("id", Str "L1"); ("title", Str "To do")]));
    [reflexivity | reflexivity | reflexivity | discriminate].
Defined.

(** X16: the columns of the rendered board hold stored cards only and do
    not overlap: a card shown in the column of one list is not shown in the
    column of a list with a different id. *)
Theorem listCards_columns_disjoint (cards list1 list2 : value)
    (column1 column2 : list value) :
  BoardView.listCards cards list1 = Some column1 ->
  BoardView.listCards cards list2 = Some column2 ->
  strict_eq (get_opt list1 "id") (get_opt list2 "id") = false ->
  (forall c, In c column1 -> In c (array_or_empty cards))
  /\ (forall c, In c column1 -> ~ In c column2).
Proof.
  unfold BoardView.listCards. intros H1 H2 Hdiff.
  destruct cards; try discriminate. simpl. split.
  - intros c Hin. exact (proj1 (filter_throwing_In _ _ _ _ H1 Hin)).
  - intros c Hin1 Hin2.
    destruct (filter_throwing_In _ _ _ _ H1 Hin1) as [_ Hp1].
    destruct (filter_throwing_In _ _ _ _ H2 Hin2) as [_ Hp2].
    cbv beta in Hp1, Hp2.
    destruct (get c "list_id") as [l|]; [|discriminate].
    unfold get_opt in Hdiff.
    destruct (get list1 "id") as [i1|]; [|discriminate].
    destruct (get list2 "id") as [i2|]; [|discriminate].
    injection Hp1 as Hp1. injection Hp2 as Hp2.
    rewrite (strict_eq_common _ _ _ Hp1 Hp2) in Hdiff. discriminate.
Qed.

Lemma listCards_columns_disjoint_witness :
  (forall c, In c [Obj [("id", Str "c1"); ("list_id", Str "L1")];
                   Obj [("id", Str "c3"); ("list_id", Str "L1")]] ->
             In c (array_or_empty (BoardView.cards loaded_board)))
  /\ (forall c, In c [Obj [("id", Str "c1"); ("list_id", Str "L1")];
                      Obj [("id", Str "c3"); ("list_id", Str "L1")]] ->
                ~ In c [Obj [("id", Str "c2"); ("list_id", Str "L2")]]).
Proof.
  exact (listCards_columns_disjoint (BoardView.cards loaded_board)
           (Obj [("id", Str "L1"); ("title", Str "To do")])
           (Obj [("id", Str "L2"); ("title", Str "Done")])
           _ _ eq_refl eq_refl eq_refl).
Defined.

(** X17: a confirmed deletion whose request is answered issues the delete,
    then requests the board again, closes the detail dialog and shows "Card
    deleted", whatever the refetch answers. *)
Theorem deleteCard_confirmed (boardId cardId : value) (s : BoardView.state) (e : env)
    (answer : value) :
  confirm_answer e = true ->
  backend e 0 = Ok answer ->
  let w := snd (BoardView.deleteCard boardId cardId e (init s)) in
  requests (log w)
  = [Request DELETE (CardById cardId) Undefined (auth_of e);
     Request GET (BoardById boardId) Undefined (auth_of e);
     Request GET (ListsOf boardId) Undefined (auth_of e);
     Request GET (CardsOf boardId) Undefined (auth_of e)]
  /\ success_toasts (log w) = [Str "Card deleted"]
  /\ BoardView.showCardDialog (st w) = false.
Proof.
  intros Hyes Hok.
  unfold BoardView.deleteCard. run_board_handler. rewrite Hyes. run_board_handler.
  rewrite Hok. run_board_handler.
  destruct (backend e 1); [destruct (backend e 2); [destruct (backend e 3)|]|];
    repeat split.
Qed.

Lemma deleteCard_confirmed_witness :
  let w := snd (BoardView.deleteCard (Str "B1") (Str "c1") one_list_env
                  (init loaded_board)) in
  requests (log w)
  = [Request DELETE (CardById (Str "c1")) Undefined (auth_of one_list_env);
     Request GET (BoardById (Str "B1")) Undefined (auth_of one_list_env);
     Request GET (ListsOf (Str "B1")) Undefined (auth_of one_list_env);
     Request GET (CardsOf (Str "B1")) Undefined (auth_of one_list_env)]
  /\ success_toasts (log w) = [Str "Card deleted"]
  /\ BoardView.showCardDialog (st w) = false.
Proof.
  exact (deleteCard_confirmed (Str "B1") (Str "c1") loaded_board one_list_env
           (Arr [Obj [("id", Str "L1"); ("title", Str "To do")]]) eq_refl eq_refl).
Defined.

(** X18: a confirmed deletion whose request is refused shows "Failed to
    delete card" and changes nothing: the detail dialog stays open and no
    refetch is started. *)
Theorem deleteCard_refused (boardId cardId : value) (s : BoardView.state) (e : env) :
  confirm_answer e = true ->
  failed (backend e 0) = true ->
  BoardView.deleteCard boardId cardId e (init s)
  = (Val tt,
     World s
           [Confirm "Delete this card?";
            Sent (Request DELETE (CardById cardId) Undefined (auth_of e));
            ToastError (Str "Failed to delete card")]
           1).
Proof.
  intros Hyes Hfail.
  unfold BoardView.deleteCard. run_board_handler. rewrite Hyes. run_board_handler.
  destruct (backend e 0); [discriminate|]. reflexivity.
Qed.

Lemma deleteCard_refused_witness :
  BoardView.deleteCard (Str "B1") (Str "c1") unreachable_env (init loaded_board)
  = (Val tt,
     World loaded_board
           [Confirm "Delete this card?";
            Sent (Request DELETE (CardById (Str "c1")) Undefined (auth_of unreachable_env));
            ToastError (Str "Failed to delete card")]
           1).
Proof.
  exact (deleteCard_refused (Str "B1") (Str "c1") loaded_board unreachable_env
           eq_refl eq_refl).
Defined.

(** X19: an update that is answered sends the given changes for the given
    card, requests the board again and then shows "Card updated"; unlike a
    deletion it leaves the detail dialog open, with the card as edited
    locally.  An update that is refused shows "Failed to update card" and
    changes nothing. *)
Theorem updateCard_outcomes (boardId cardId updates : value) (s : BoardView.state)
    (e : env) :
  let w := snd (BoardView.updateCard boardId cardId updates e (init s)) in
  (forall answer, backend e 0 = Ok answer ->
     requests (log w)
     = [Request PUT (CardById cardId) updates (auth_of e);
        Request GET (BoardById boardId) Undefined (auth_of e);
        Request GET (ListsOf boardId) Undefined (auth_of e);
        Request GET (CardsOf boardId) Undefined (auth_of e)]
     /\ success_toasts (log w) = [Str "Card updated"]
     /\ BoardView.showCardDialog (st w) = BoardView.showCardDialog s
     /\ BoardView.selectedCard (st w) = BoardView.selectedCard s)
  /\ (failed (backend e 0) = true ->
      BoardView.updateCard boardId cardId updates e (init s)
      = (Val tt,
         World s [Sent (Request PUT (CardById cardId) updates (auth_of e));
                  ToastError (Str "Failed to update card")] 1)).
Proof.
  unfold BoardView.updateCard. run_board_handler.
  destruct (backend e 0) as [d|r]; run_board_handler;
    (split; [intros answer Hanswer|intros Hrefused]); try discriminate.
  - destruct (backend e 1); [destruct (backend e 2); [destruct (backend e 3)|]|];
      repeat split.
  - reflexivity.
Qed.

(** X20: opening the new-card dialog for a list starts from an empty title
    (a title typed before is discarded), so submitting it right away is
    rejected with "Card title is required" and issues no request. *)
Theorem createCard_then_submit_is_rejected (boardId list_id : value)
    (s : BoardView.state) (e : env) :
  let opened := snd (BoardView.createCard list_id e (init s)) in
  BoardView.newCardData (st opened) = BoardView.NewCard "" list_id
  /\ BoardView.showNewCardDialog (st opened) = true
  /\ log opened = []
  /\ BoardView.handleCreateCard boardId (st opened) e opened
     = (Val tt, World (st opened) [ToastError (Str "Card title is required")] 0).
Proof. repeat split. Qed.

(* ===================================================================== *)
(** ** Further properties of the Dashboard handlers *)
(* ===================================================================== *)

Lemma trim_start_head s c rest : trim_start s = String c rest -> is_space c = false.
Proof.
  induction s as [|a s' IH]; simpl; [discriminate|].
  destruct (is_space a) eqn:Ha; [exact IH|].
  intros H. injection H as <- _. exact Ha.
Qed.

Lemma trim_start_blank s :
  trim_start s = "" <-> forallb is_space (chars s) = true.
Proof.
  unfold chars. induction s as [|a s' IH]; simpl; [tauto|].
  destruct (is_space a); simpl; [exact IH|].
  split; discriminate.
Qed.

(** [trim] leaves nothing exactly when every character is white space. *)
Lemma trim_blank s : trim s = "" <-> forallb is_space (chars s) = true.
Proof.
  rewrite <- trim_start_blank. unfold trim.
  destruct (trim_start s) as [|c rest] eqn:Hs; [simpl; tauto|].
  simpl. rewrite (trim_start_head _ _ _ Hs). simpl. split; discriminate.
Qed.

Lemma existsb_negb_forallb {A} (p : A -> bool) (l : list A) :
  existsb (fun x => negb (p x)) l = negb (forallb p l).
Proof.
  induction l as [|x rest IH]; simpl; [reflexivity|].
  rewrite IH. now destruct (p x).
Qed.

(** X21: [fetchBoards] never throws, always issues exactly one request,
    always ends with [loading] cleared and never touches the new-board
    dialog; an answer is stored as it is, without a notification, and a
    refusal keeps the boards shown before and shows "Failed to load
    boards". *)
Theorem fetchBoards_outcomes (s : Dashboard.state) (e : env) :
  let w := snd (Dashboard.fetchBoards e (init s)) in
  fst (Dashboard.fetchBoards e (init s)) = Val tt
  /\ requests (log w) = [Request GET Boards Undefined (auth_of e)]
  /\ Dashboard.loading (st w) = false
  /\ (Dashboard.showNewBoard (st w), Dashboard.newBoardData (st w))
     = (Dashboard.showNewBoard s, Dashboard.newBoardData s)
  /\ (forall answer, backend e 0 = Ok answer ->
        Dashboard.boards (st w) = answer /\ error_toasts (log w) = [])
  /\ (failed (backend e 0) = true ->
        Dashboard.boards (st w) = Dashboard.boards s
        /\ error_toasts (log w) = [Str "Failed to load boards"]).
Proof.
  unfold Dashboard.fetchBoards. run_handler.
  destruct (backend e 0) as [d|r];
    (split; [reflexivity|split; [reflexivity|split; [reflexivity|split;
       [reflexivity|split; [intros answer Hanswer|intros Hrefused]]]]]);
    try discriminate.
  - injection Hanswer as <-. split; reflexivity.
  - split; reflexivity.
Qed.

(** X22: a board created from a non-blank title is posted with the title
    and the description exactly as typed (the title is not trimmed); once
    the post is answered "Board created successfully!" is shown, the dialog
    is closed, the form is reset and the boards are requested again. *)
Theorem createBoard_posts_then_refetches (s : Dashboard.state) (e : env)
    (answer : value) :
  trim (Dashboard.title (Dashboard.newBoardData s)) <> "" ->
  backend e 0 = Ok answer ->
  let w := snd (Dashboard.createBoard s e (init s)) in
  requests (log w)
  = [Request POST Boards
       (Obj [("title", Str (Dashboard.title (Dashboard.newBoardData s)));
             ("description", Str (Dashboard.description (Dashboard.newBoardData s)))])
       (auth_of e);
     Request GET Boards Undefined (auth_of e)]
  /\ success_toasts (log w) = [Str "Board created successfully!"]
  /\ Dashboard.showNewBoard (st w) = false
  /\ Dashboard.newBoardData (st w) = Dashboard.NewBoard "" "".
Proof.
  intros Hne Hok.
  unfold Dashboard.createBoard, Dashboard.fetchBoards. not_blank Hne. run_handler.
  rewrite Hok. run_handler. destruct (backend e 1); repeat split.
Qed.

Lemma createBoard_posts_then_refetches_witness :
  let w := snd (Dashboard.createBoard typed_board_title one_list_env
                  (init typed_board_title)) in
  requests (log w)
  = [Request POST Boards
       (Obj [("title", Str " Home "); ("description", Str "chores")])
       (auth_of one_list_env);
     Request GET Boards Undefined (auth_of one_list_env)]
  /\ success_toasts (log w) = [Str "Board created successfully!"]
  /\ Dashboard.showNewBoard (st w) = false
  /\ Dashboard.newBoardData (st w) = Dashboard.NewBoard "" "".
Proof.
  apply (createBoard_posts_then_refetches typed_board_title one_list_env
           (Arr [Obj [("id", Str "L1"); ("title", Str "To do")]]));
    [discriminate | reflexivity].
Defined.

(** X23: a board creation whose post is refused shows "Failed to create
    board" and changes nothing: the dialog stays open with what was typed
    and the boards are not requested again. *)
Theorem createBoard_refused (s : Dashboard.state) (e : env) :
  trim (Dashboard.title (Dashboard.newBoardData s)) <> "" ->
  failed (backend e 0) = true ->
  Dashboard.createBoard s e (init s)
  = (Val tt,
     World s
           [Sent (Request POST Boards
                    (Obj [("title", Str (Dashboard.title (Dashboard.newBoardData s)));
                          ("description",
                           Str (Dashboard.description (Dashboard.newBoardData s)))])
                    (auth_of e));
            ToastError (Str "Failed to create board")]
           1).
Proof.
  intros Hne Hfail.
  unfold Dashboard.createBoard. not_blank Hne. run_handler.
  destruct (backend e 0); [discriminate|]. reflexivity.
Qed.

Lemma createBoard_refused_witness :
  Dashboard.createBoard typed_board_title unreachable_env (init typed_board_title)
  = (Val tt,
     World typed_board_title
           [Sent (Request POST Boards
                    (Obj [("title", Str " Home "); ("description", Str "chores")])
                    (auth_of unreachable_env));
            ToastError (Str "Failed to create board")]
           1).
Proof.
  apply (createBoard_refused typed_board_title unreachable_env);
    [discriminate | reflexivity].
Defined.

(** X24: board creation reaches the backend exactly when the typed title
    holds a character that is not white space. *)
Theorem createBoard_requests_iff_visible_title (s : Dashboard.state) (e : env) :
  requests (log (snd (Dashboard.createBoard s e (init s)))) <> []
  <-> existsb (fun c => negb (is_space c))
              (chars (Dashboard.title (Dashboard.newBoardData s))) = true.
Proof.
  rewrite existsb_negb_forallb, negb_true_iff.
  unfold Dashboard.createBoard.
  destruct (trim (Dashboard.title (Dashboard.newBoardData s)) =? "") eqn:Hb.
  - apply String.eqb_eq in Hb. apply trim_blank in Hb. rewrite Hb.
    split; [intros H; now contradiction H|discriminate].
  - apply String.eqb_neq in Hb. split.
    + intros _. apply not_true_is_false. intros Hall. apply Hb.
      now apply trim_blank.
    + intros _. unfold Dashboard.fetchBoards. run_handler.
      destruct (backend e 0); run_handler; [destruct (backend e 1)|];
        simpl; discriminate.
Qed.

(* ===================================================================== *)
(** ** Further properties of the Login handler *)
(* ===================================================================== *)

(** X25: a submission always issues exactly one request, without an
    authorization header, to the login endpoint in login mode and to the
    registration endpoint otherwise, carrying email, password and name; it
    never throws, and whatever happens it ends with [loading] cleared and
    the mode and the form (password included) as they were. *)
Theorem handleSubmit_single_request (s : Login.state) (e : env) :
  let w := snd (Login.handleSubmit s e (init s)) in
  fst (Login.handleSubmit s e (init s)) = Val tt
  /\ requests (log w)
     = [Request POST (if Login.isLogin s then AuthLogin else AuthRegister)
          (Obj [("email", Str (Login.email (Login.formData s)));
                ("password", Str (Login.password (Login.formData s)));
                ("name", Str (Login.name (Login.formData s)))])
          None]
  /\ st w = Login.setLoading false s.
Proof.
  unfold Login.handleSubmit, Login.onLogin. run_handler.
  destruct (backend e 0) as [d|r]; [|repeat split].
  run_handler. destruct (get d "token"); [|repeat split].
  run_handler. destruct (get d "user"); [|repeat split].
  run_handler. destruct (onLogin_raises e); repeat split.
Qed.

(** X26: a submission that is refused, or answered with a [null] body,
    never reaches the [onLogin] callback and shows no success notification;
    its one error notification is the backend's [detail] when that is
    truthy and "An error occurred" otherwise. *)
Theorem handleSubmit_failure_reports_detail (s : Login.state) (e : env) :
  answer_unusable (backend e 0) = true ->
  let w := snd (Login.handleSubmit s e (init s)) in
  onLogin_calls (log w) = []
  /\ success_toasts (log w) = []
  /\ error_toasts (log w)
     = [or_else (refusal_detail (backend e 0)) (Str "An error occurred")].
Proof.
  intros Hfail. unfold Login.handleSubmit, Login.onLogin. run_handler.
  destruct (backend e 0) as [d|[d|]]; simpl in Hfail.
  - run_handler. rewrite (get_nullish _ "token" Hfail). repeat split.
  - repeat split.
  - repeat split.
Qed.

Lemma handleSubmit_failure_reports_detail_witness :
  let w := snd (Login.handleSubmit login_form refusing_env (init login_form)) in
  onLogin_calls (log w) = []
  /\ success_toasts (log w) = []
  /\ error_toasts (log w)
     = [or_else (refusal_detail (backend refusing_env 0)) (Str "An error occurred")].
Proof.
  exact (handleSubmit_failure_reports_detail login_form refusing_env eq_refl).
Defined.

(** X27: any answer with a body that is not [null] counts as a success: the
    callback receives the body's [token] and [user] as they are, [undefined]
    when the body lacks them, and, unless the callback raises, the
    notification is "Welcome back!" in login mode and "Account created
    successfully!" in registration mode, with no error notification. *)
Theorem handleSubmit_accepts_any_body (s : Login.state) (e : env) (data : value) :
  backend e 0 = Ok data ->
  is_nullish data = false ->
  onLogin_raises e = None ->
  let w := snd (Login.handleSubmit s e (init s)) in
  onLogin_calls (log w) = [(get_opt data "token", get_opt data "user")]
  /\ success_toasts (log w)
     = [Str (if Login.isLogin s then "Welcome back!"
             else "Account created successfully!")]
  /\ error_toasts (log w) = [].
Proof.
  intros Hok Hn Hquiet. unfold Login.handleSubmit, Login.onLogin. run_handler.
  rewrite Hok. run_handler.
  rewrite (get_not_nullish _ "token" Hn). run_handler.
  rewrite (get_not_nullish _ "user" Hn). run_handler.
  rewrite Hquiet. repeat split.
Qed.

Lemma handleSubmit_accepts_any_body_witness :
  let w := snd (Login.handleSubmit register_form empty_object_env (init register_form)) in
  onLogin_calls (log w) = [(get_opt (Obj []) "token", get_opt (Obj []) "user")]
  /\ success_toasts (log w)
     = [Str (if Login.isLogin register_form then "Welcome back!"
             else "Account created successfully!")]
  /\ error_toasts (log w) = [].
Proof.
  exact (handleSubmit_accepts_any_body register_form empty_object_env (Obj [])
           eq_refl eq_refl eq_refl).
Defined.

(** X28: when the parent's callback raises after an accepted submission,
    the callback has been invoked (once) but the user sees the failure path:
    no success notification, and one error notification built from what was
    raised. *)
Theorem handleSubmit_callback_raises (s : Login.state) (e : env)
    (data : value) (raised : exn) :
  backend e 0 = Ok data ->
  is_nullish data = false ->
  onLogin_raises e = Some raised ->
  let w := snd (Login.handleSubmit s e (init s)) in
  onLogin_calls (log w) = [(get_opt data "token", get_opt data "user")]
  /\ success_toasts (log w) = []
  /\ error_toasts (log w)
     = [or_else (get_opt (response_data_of raised) "detail") (Str "An error occurred")].
Proof.
  intros Hok Hn Hraise. unfold Login.handleSubmit, Login.onLogin. run_handler.
  rewrite Hok. run_handler.
  rewrite (get_not_nullish _ "token" Hn). run_handler.
  rewrite (get_not_nullish _ "user" Hn). run_handler.
  rewrite Hraise. repeat split.
Qed.

Lemma handleSubmit_callback_raises_witness :
  let w := snd (Login.handleSubmit login_form raising_callback_env (init login_form)) in
  onLogin_calls (log w)
  = [(get_opt (Obj [("token", Str "t0k3n");
                    ("user", Obj [("id", Str "u1"); ("name", Str "Ada")])]) "token",
      get_opt (Obj [("token", Str "t0k3n");
                    ("user", Obj [("id", Str "u1"); ("name", Str "Ada")])]) "user")]
  /\ success_toasts (log w) = []
  /\ error_toasts (log w)
     = [or_else (get_opt (response_data_of TypeError) "detail") (Str "An error occurred")].
Proof.
  exact (handleSubmit_callback_raises login_form raising_callback_env
           (Obj [("token", Str "t0k3n");
                 ("user", Obj [("id", Str "u1"); ("name", Str "Ada")])])
           TypeError eq_refl eq_refl eq_refl).
Defined.
